(** * The dashboard's user controller (cmd/dashboard/controller/user.go)

    A shallow embedding of the seven request handlers of the file
    (getProfile, updateProfile, listUser, createUser, batchDeleteUser,
    listOnlineUser, batchBlockOnlineUser) and the properties the
    specification states about them.

    The handlers are glue: everything they touch apart from the request
    (the bcrypt hasher, the gorm handle [singleton.DB], the functions of
    package singleton) lives outside the file.  Those collaborators are
    an interface here (class [Collaborators]) over an arbitrary state
    [X]; the handlers run in a small state monad that threads [X] and
    keeps a log of every call that leaves the controller, so that "the
    store is never reached" is a statement about the log.  Module [Sim]
    gives one executable implementation of the interface, used to run
    the handlers on concrete requests.

    Go strings are byte sequences and [len] counts bytes; [string] is
    used the same way, one [ascii] per byte. *)

From Stdlib Require Import Ascii String ZArith Lia.
From stdpp Require Import base numbers option list strings gmap.

Local Open Scope string_scope.
Local Open Scope Z_scope.

(** ** Errors *)

(** The five kinds of the specification's error taxonomy. *)
Inductive ErrorClass : Type :=
| ValidationError
| AuthenticationError
| ConflictError
| PersistenceError
| NotFoundError.

(** Error values as the controller builds or forwards them. *)
#[warnings="-register-all"] Inductive error : Type :=
| ErrorT (key : string)
    (* singleton.Localizer.ErrorT(key): a localized message, known by its key *)
| gormError (format : string) (a : list error)
    (* newGormError(format, a...) *)
| Foreign (pkg msg : string)
    (* built by a library: gin's binding, strconv, bcrypt, gorm *)
| Classified (class : ErrorClass) (msg : string).
    (* returned by package singleton; only its kind is known *)

Definition newGormError (format : string) (a : list error) : error :=
  gormError format a.

(** The taxonomy laid over the error values: validation, authentication
    and conflict errors are the localized messages the handlers return
    at the operation boundary.  A value built by newGormError is
    labelled after its constructor, the way updateProfile uses it for a
    failed DB.Save; the label says nothing about the error it wraps,
    which keeps its own class.  An error built by a library has no
    class here. *)
Definition classify (e : error) : option ErrorClass :=
  match e with
  | ErrorT key =>
      if String.eqb key "password length must be greater than 6" then Some ValidationError
      else if String.eqb key "username can't be empty" then Some ValidationError
      else if String.eqb key "unauthorized" then Some AuthenticationError
      else if String.eqb key "incorrect password" then Some AuthenticationError
      else if String.eqb key "can't delete yourself" then Some ConflictError
      else None
  | gormError _ _ => Some PersistenceError
  | Foreign _ _ => None
  | Classified class _ => Some class
  end.

(** ** Data of package model used by the handlers *)

(** model.User: the fields the controller reads or writes.  [ID] is a
    uint64, [Role] a small unsigned integer. *)
Record User : Type := mkUser {
  ID : Z;
  Username : string;
  Password : string;
  Role : Z
}.

(** The zero value that [var u model.User] declares. *)
Definition zeroUser : User := mkUser 0 "" "" 0.

Definition set_Username (v : string) (u : User) : User :=
  mkUser (ID u) v (Password u) (Role u).
Definition set_Password (v : string) (u : User) : User :=
  mkUser (ID u) (Username u) v (Role u).
Definition set_Role (v : Z) (u : User) : User :=
  mkUser (ID u) (Username u) (Password u) v.
Definition set_ID (v : Z) (u : User) : User :=
  mkUser v (Username u) (Password u) (Role u).

(** model.Profile *)
Record Profile : Type := mkProfile {
  Profile_User : User;
  LoginIP : string
}.

(** model.ProfileForm *)
Record ProfileForm : Type := mkProfileForm {
  OriginalPassword : string;
  NewUsername : string;
  NewPassword : string
}.

(** model.UserForm.  The handler reads [uf_Username] and [uf_Password]
    only; [uf_Role] stands for whatever else a request may carry. *)
Record UserForm : Type := mkUserForm {
  uf_Username : string;
  uf_Password : string;
  uf_Role : Z
}.

(** Modelled from the spec: model.OnlineUser is declared outside this
    file; a session is "session identity, owning account or agent
    identity, originating network address, connection timestamp". *)
Record OnlineUser : Type := mkOnlineUser {
  SessionID : Z;
  UserID : Z;
  IP : string;
  ConnectedAt : Z
}.

(** model.Pagination and model.Value *)
Record Pagination : Type := mkPagination {
  Offset : Z;
  Limit : Z;
  Total : Z
}.

Record Value (T : Type) : Type := mkValue {
  Value_Value : T;
  Value_Pagination : Pagination
}.
Arguments mkValue {T} _ _.
Arguments Value_Value {T} _.
Arguments Value_Pagination {T} _.

(** ** The request context *)

(** A Go [any] as the handlers meet it: a value stored under a context
    key, or the payload a handler returns. *)
Inductive Any : Type :=
| AnyNil
| AnyUser (p : option User)   (* a *model.User; [None] is the nil pointer *)
| AnyString (s : string)
| AnyInt (n : Z).

(** gin.Context, reduced to what the handlers read: the key/value store
    filled by the middleware, the URL query, and the request body as
    the outcome of binding it at the handler's form type [B] (parameter
    binding itself is gin's). *)
Record Context (B : Type) : Type := mkContext {
  Keys : gmap string Any;
  QueryArgs : gmap string (list string);
  Body : B + error
}.
Arguments mkContext {B} _ _ _.
Arguments Keys {B} _.
Arguments QueryArgs {B} _.
Arguments Body {B} _.

(** c.ShouldBindJSON(&form) *)
Definition ShouldBindJSON {B} (c : Context B) : B + error := Body c.

(** c.Get(key) *)
Definition Get {B} (c : Context B) (key : string) : Any * bool :=
  match Keys c !! key with
  | Some v => (v, true)
  | None => (AnyNil, false)
  end.

(** c.GetString(key): the empty string unless a string is stored there *)
Definition GetString {B} (c : Context B) (key : string) : string :=
  match Keys c !! key with
  | Some (AnyString s) => s
  | _ => ""
  end.

(** c.Query(key): the first value of the key in the URL, else "" *)
Definition Query {B} (c : Context B) (key : string) : string :=
  match QueryArgs c !! key with
  | Some (v :: _) => v
  | _ => ""
  end.

(** ** strconv.Atoi *)

(** Go's library function, after its documentation: an optional sign
    followed by one or more decimal digits, read as a 64-bit int.  A
    syntax error yields 0, an out-of-range number the nearest bound,
    both with a non-nil error. *)
Definition digit (a : ascii) : option Z :=
  let n := Z.of_nat (nat_of_ascii a) in
  if (48 <=? n) && (n <=? 57) then Some (n - 48) else None.

Fixpoint digits (s : string) (acc : Z) : option Z :=
  match s with
  | EmptyString => Some acc
  | String a rest =>
      match digit a with
      | Some d => digits rest (10 * acc + d)
      | None => None
      end
  end.

Definition maxInt : Z := 2 ^ 63 - 1.
Definition minInt : Z := - 2 ^ 63.

Definition ErrSyntax : error := Foreign "strconv" "invalid syntax".
Definition ErrRange : error := Foreign "strconv" "value out of range".

Definition Atoi (s : string) : Z * option error :=
  let '(neg, body) :=
    match s with
    | String "+"%char rest => (false, rest)
    | String "-"%char rest => (true, rest)
    | _ => (false, s)
    end in
  match body with
  | EmptyString => (0, Some ErrSyntax)
  | _ =>
      match digits body 0 with
      | None => (0, Some ErrSyntax)
      | Some n =>
          let v := if neg then - n else n in
          if v <? minInt then (minInt, Some ErrRange)
          else if maxInt <? v then (maxInt, Some ErrRange)
          else (v, None)
      end
  end.

(** ** Collaborators and the handler monad *)

(** What the controller calls outside itself, over a state [X] that the
    controller never inspects.  Constants of package model are fields
    too. *)
Class Collaborators (X : Type) : Type := {
  CtxKeyAuthorizedUser : string;
  CtxKeyRealIPStr : string;
  RoleMember : Z;
  DefaultCost : Z;
  (* bcrypt.CompareHashAndPassword(hashedPassword, password): nil on a match *)
  bcrypt_CompareHashAndPassword : string -> string -> option error;
  (* bcrypt.GenerateFromPassword(password, cost): salted, so it reads [X] *)
  bcrypt_GenerateFromPassword : string -> Z -> X -> (string * option error) * X;
  (* the rows of the users table, all columns *)
  gorm_users : X -> list User * option error;
  (* DB.Save(&user).Error *)
  gorm_Save : User -> X -> option error * X;
  (* DB.Create(&u).Error, with u as the call leaves it (ID filled in) *)
  gorm_Create : User -> X -> (User * option error) * X;
  singleton_OnUserUpdate : User -> X -> X;
  singleton_OnUserDelete :
    list Z -> (string -> list error -> error) -> X -> option error * X;
  singleton_GetOnlineUsers : Z -> Z -> X -> list OnlineUser;
  singleton_GetOnlineUserCount : X -> Z;
  singleton_BlockByIPs : list string -> X -> option error * X
}.

(** One entry per call that leaves the controller. *)
Inductive Call : Type :=
| Call_GenerateFromPassword (password : string)
| Call_DB_Find (omit : list string)
| Call_DB_Save (u : User)
| Call_DB_Create (u : User)
| Call_OnUserUpdate (u : User)
| Call_OnUserDelete (ids : list Z)
| Call_GetOnlineUsers (limit offset : Z)
| Call_GetOnlineUserCount
| Call_BlockByIPs (addrs : list string).

Record World (X : Type) : Type := mkWorld {
  ext : X;
  calls : list Call   (* oldest first *)
}.
Arguments mkWorld {X} _ _.
Arguments ext {X} _.
Arguments calls {X} _.

(** A handler either returns or panics (a failed type assertion, a nil
    dereference, MustGet on a missing key). *)
Inductive run (X A : Type) : Type :=
| Done (a : A) (w : World X)
| Panic (msg : string) (w : World X).
Arguments Done {X A} _ _.
Arguments Panic {X A} _ _.

Definition M (X A : Type) : Type := World X -> run X A.

#[export] Instance M_ret {X} : MRet (M X) := fun A a w => Done a w.

#[export] Instance M_bind {X} : MBind (M X) := fun A B k m w =>
  match m w with
  | Done a w' => k a w'
  | Panic msg w' => Panic msg w'
  end.

Definition panic {X A} (msg : string) : M X A := fun w => Panic msg w.

(** The calls logged since [w], as seen from a later world [w']. *)
Definition new_calls {X} (w w' : World X) : list Call :=
  drop (length (calls w)) (calls w').

(** [err != nil] *)
Definition notnil (err : option error) : bool :=
  match err with
  | Some _ => true
  | None => false
  end.

(** slices.Contains *)
Definition slices_Contains (s : list Z) (v : Z) : bool := bool_decide (v ∈ s).

(** gorm's Omit: a column left out of the SELECT keeps the zero value
    in the struct it is scanned into.  Columns are named after the
    fields of model.User. *)
Definition omit_column (u : User) (col : string) : User :=
  if String.eqb col "id" then set_ID 0 u
  else if String.eqb col "username" then set_Username "" u
  else if String.eqb col "password" then set_Password "" u
  else if String.eqb col "role" then set_Role 0 u
  else u.

Definition omit_columns (cols : list string) (u : User) : User :=
  foldl omit_column u cols.

Section Handlers.
Context {X : Type} `{E : Collaborators X}.

(** Run a collaborator on the external state and log the call. *)
Definition call {A} (c : Call) (f : X -> A * X) : M X A :=
  fun w => let '(a, x) := f (ext w) in Done a (mkWorld x (calls w ++ [c])).

Definition GenerateFromPassword (password : string) (cost : Z)
  : M X (string * option error) :=
  call (Call_GenerateFromPassword password)
       (bcrypt_GenerateFromPassword password cost).

(** singleton.DB.Omit(cols...).Find(&users).Error *)
Definition DB_Omit_Find (cols : list string) : M X (list User * option error) :=
  call (Call_DB_Find cols)
       (fun x => (match gorm_users x with
                  | (rows, None) => (omit_columns cols <$> rows, None)
                  | (_, Some err) => ([], Some err)
                  end, x)).

Definition DB_Save (u : User) : M X (option error) :=
  call (Call_DB_Save u) (gorm_Save u).

Definition DB_Create (u : User) : M X (User * option error) :=
  call (Call_DB_Create u) (gorm_Create u).

Definition OnUserUpdate (u : User) : M X unit :=
  call (Call_OnUserUpdate u) (fun x => (tt, singleton_OnUserUpdate u x)).

Definition OnUserDelete (ids : list Z) (errorf : string -> list error -> error)
  : M X (option error) :=
  call (Call_OnUserDelete ids) (singleton_OnUserDelete ids errorf).

Definition GetOnlineUsers (limit offset : Z) : M X (list OnlineUser) :=
  call (Call_GetOnlineUsers limit offset)
       (fun x => (singleton_GetOnlineUsers limit offset x, x)).

Definition GetOnlineUserCount : M X Z :=
  call Call_GetOnlineUserCount (fun x => (singleton_GetOnlineUserCount x, x)).

Definition BlockByIPs (addrs : list string) : M X (option error) :=
  call (Call_BlockByIPs addrs) (singleton_BlockByIPs addrs).

(** c.MustGet(key) *)
Definition MustGet {B} (c : Context B) (key : string) : M X Any :=
  match Keys c !! key with
  | Some v => mret v
  | None => panic "Key does not exist"
  end.

(** v.( *model.User ) *)
Definition assertUser (v : Any) : M X (option User) :=
  match v with
  | AnyUser p => mret p
  | _ => panic "interface conversion: not a *model.User"
  end.

(** *p, and p.f *)
Definition deref (p : option User) : M X User :=
  match p with
  | Some u => mret u
  | None => panic "nil pointer dereference"
  end.

(** user.go, lines 23-32 *)
Definition getProfile {B} (c : Context B) : M X (option Profile * option error) :=
  let '(auth, ok) := Get c CtxKeyAuthorizedUser in
  if negb ok then mret (None, Some (ErrorT "unauthorized"))
  else
    p ← assertUser auth;
    u ← deref p;
    mret (Some (mkProfile u (GetString c CtxKeyRealIPStr)), None).

(** user.go, lines 45-73 *)
Definition updateProfile (c : Context ProfileForm) : M X (Any * option error) :=
  match ShouldBindJSON c with
  | inr err => mret (AnyInt 0, Some err)
  | inl pf =>
      let '(auth, ok) := Get c CtxKeyAuthorizedUser in
      if negb ok then mret (AnyNil, Some (ErrorT "unauthorized"))
      else
        p ← assertUser auth;
        user ← deref p;
        if notnil (bcrypt_CompareHashAndPassword (Password user) (OriginalPassword pf))
        then mret (AnyNil, Some (ErrorT "incorrect password"))
        else
          '(hash, err) ← GenerateFromPassword (NewPassword pf) DefaultCost;
          match err with
          | Some err => mret (AnyNil, Some err)
          | None =>
              let user := set_Username (NewUsername pf) user in
              let user := set_Password hash user in
              err ← DB_Save user;
              match err with
              | Some err => mret (AnyNil, Some (newGormError "%v" [err]))
              | None => mret (AnyNil, None)
              end
          end
  end.

(** user.go, lines 84-90 *)
Definition listUser {B} (c : Context B) : M X (list User * option error) :=
  '(users, err) ← DB_Omit_Find ["password"];
  match err with
  | Some err => mret ([], Some err)
  | None => mret (users, None)
  end.

(** user.go, lines 103-132 *)
Definition createUser (c : Context UserForm) : M X (Z * option error) :=
  match ShouldBindJSON c with
  | inr err => mret (0, Some err)
  | inl uf =>
      if Z.of_nat (String.length (uf_Password uf)) <? 6
      then mret (0, Some (ErrorT "password length must be greater than 6"))
      else if String.eqb (uf_Username uf) ""
      then mret (0, Some (ErrorT "username can't be empty"))
      else
        let u := zeroUser in
        let u := set_Username (uf_Username uf) u in
        let u := set_Role RoleMember u in
        '(hash, err) ← GenerateFromPassword (uf_Password uf) DefaultCost;
        match err with
        | Some err => mret (0, Some err)
        | None =>
            let u := set_Password hash u in
            '(u, err) ← DB_Create u;
            match err with
            | Some err => mret (0, Some err)
            | None =>
                OnUserUpdate u;;
                mret (ID u, None)
            end
        end
  end.

(** user.go, lines 145-157 *)
Definition batchDeleteUser (c : Context (list Z)) : M X (Any * option error) :=
  match ShouldBindJSON c with
  | inr err => mret (AnyNil, Some err)
  | inl ids =>
      v ← MustGet c CtxKeyAuthorizedUser;
      p ← assertUser v;
      auth ← deref p;
      if slices_Contains ids (ID auth)
      then mret (AnyNil, Some (ErrorT "can't delete yourself"))
      else
        err ← OnUserDelete ids newGormError;
        mret (AnyNil, err)
  end.

(** user.go, lines 170-189 *)
Definition listOnlineUser {B} (c : Context B)
  : M X (option (Value (list OnlineUser)) * option error) :=
  let '(limit, err) := Atoi (Query c "limit") in
  let limit := if notnil err || (limit <? 1) then 25 else limit in
  let '(offset, err) := Atoi (Query c "offset") in
  let offset := if notnil err || (offset <? 0) then 0 else offset in
  users ← GetOnlineUsers limit offset;
  total ← GetOnlineUserCount;
  mret (Some (mkValue users (mkPagination offset limit total)), None).

(** user.go, lines 202-213 *)
Definition batchBlockOnlineUser (c : Context (list string)) : M X (Any * option error) :=
  match ShouldBindJSON c with
  | inr err => mret (AnyNil, Some err)
  | inl list =>
      err ← BlockByIPs list;
      match err with
      | Some err => mret (AnyNil, Some (newGormError "%v" [err]))
      | None => mret (AnyNil, None)
      end
  end.

End Handlers.

(** ** An executable implementation of the collaborators *)

Module Sim.

(** The account store as one table with an auto-incremented key, the
    session registry and the block set.  [store_fault] makes every
    statement against the store fail with the given message. *)
Record State : Type := mkState {
  users : list User;
  next_id : Z;
  store_fault : option string;
  sessions : list OnlineUser;
  blockset : gset string
}.

Definition with_users (us : list User) (st : State) : State :=
  mkState us (next_id st) (store_fault st) (sessions st) (blockset st).

(** *** Hasher: a stand-in with bcrypt's interface.  The real function
    is salted and one-way; only "verify accepts exactly what generate
    produced" matters to the controller. *)
Definition hash_of (password : string) : string := "$2a$10$" +:+ password.

Definition CompareHashAndPassword (hashed password : string) : option error :=
  if String.eqb hashed (hash_of password) then None
  else Some (Foreign "bcrypt" "hashedPassword is not the hash of the given password").

Definition GenerateFromPassword (password : string) (cost : Z) (st : State)
  : (string * option error) * State :=
  if 72 <? Z.of_nat (String.length password)
  then (("", Some (Foreign "bcrypt" "password length exceeds 72 bytes")), st)
  else ((hash_of password, None), st).

(** *** Store *)
Definition rows (st : State) : list User * option error :=
  match store_fault st with
  | Some msg => ([], Some (Foreign "gorm" msg))
  | None => (users st, None)
  end.

Definition has_id (id : Z) (u : User) : bool := ID u =? id.

Fixpoint replace_row (u : User) (us : list User) : list User :=
  match us with
  | [] => [u]
  | v :: rest => if has_id (ID u) v then u :: rest else v :: replace_row u rest
  end.

Definition Save (u : User) (st : State) : option error * State :=
  match store_fault st with
  | Some msg => (Some (Foreign "gorm" msg), st)
  | None => (None, with_users (replace_row u (users st)) st)
  end.

Definition Create (u : User) (st : State) : (User * option error) * State :=
  match store_fault st with
  | Some msg => ((u, Some (Foreign "gorm" msg)), st)
  | None =>
      if existsb (fun v => String.eqb (Username v) (Username u)) (users st)
      then ((u, Some (Foreign "gorm" "UNIQUE constraint failed: users.username")), st)
      else
        let row := set_ID (next_id st) u in
        ((row, None),
         mkState (users st ++ [row]) (next_id st + 1) (store_fault st)
                 (sessions st) (blockset st))
  end.

(** *** Session registry and access control *)

(** Modelled from the spec: singleton.GetOnlineUsers and
    singleton.GetOnlineUserCount are not in this file.  [List] returns
    "an ordered (by connection time, ties broken by session identity)
    slice of at most limit sessions starting at offset"; [Count] is
    the number of live sessions. *)
Definition earlier (a b : OnlineUser) : bool :=
  (ConnectedAt a <? ConnectedAt b)
  || ((ConnectedAt a =? ConnectedAt b) && (SessionID a <=? SessionID b)).

Fixpoint insert_session (s : OnlineUser) (l : list OnlineUser) : list OnlineUser :=
  match l with
  | [] => [s]
  | t :: rest => if earlier s t then s :: l else t :: insert_session s rest
  end.

Definition ordered (l : list OnlineUser) : list OnlineUser :=
  foldr insert_session [] l.

Definition List (limit offset : Z) (st : State) : list OnlineUser :=
  take (Z.to_nat limit) (drop (Z.to_nat offset) (ordered (sessions st))).

Definition Count (st : State) : Z := Z.of_nat (length (sessions st)).

(** Modelled from the spec: [EvictByAddress] "removes every session
    whose originating address matches the set". *)
Definition EvictByAddress (addrs : gset string) (l : list OnlineUser)
  : list OnlineUser :=
  filter (fun s => IP s ∉ addrs) l.

(** Modelled from the spec: singleton.BlockByIPs is not in this file.
    [Block] "validates each address is a well-formed network
    address/prefix; fails with ValidationError on malformed input.
    Adds all addresses to the BlockSet (idempotent union), then calls
    Registry.EvictByAddress for the same set".  What counts as
    well-formed is the parameter [wf]. *)
Definition Block (wf : string -> bool) (addrs : list string) (st : State)
  : option error * State :=
  if forallb wf addrs
  then (None,
        mkState (users st) (next_id st) (store_fault st)
                (EvictByAddress (list_to_set addrs) (sessions st))
                (blockset st ∪ list_to_set addrs))
  else (Some (Classified ValidationError "malformed address"), st).

(** Modelled from the spec: singleton.OnUserDelete is not in this file.
    Each identity is deleted from the store, a persistence failure is
    reported through the injected formatter, and the sessions of the
    deleted accounts are evicted. *)
Definition OnAccountDeleted (ids : list Z)
    (errorf : string -> list error -> error) (st : State)
  : option error * State :=
  match store_fault st with
  | Some msg => (Some (errorf "%v" [Foreign "gorm" msg]), st)
  | None =>
      (None,
       mkState (filter (fun u => ID u ∉ ids) (users st)) (next_id st)
               (store_fault st)
               (filter (fun s => UserID s ∉ ids) (sessions st))
               (blockset st))
  end.

(** *** One notion of well-formed address: dotted-quad IPv4, with an
    optional prefix length. *)
Fixpoint fields (sep : ascii) (s : string) : list string :=
  match s with
  | EmptyString => [EmptyString]
  | String a rest =>
      if Ascii.eqb a sep then EmptyString :: fields sep rest
      else match fields sep rest with
           | f :: fs => String a f :: fs
           | [] => [String a EmptyString]
           end
  end.

Definition number_upto (bound : Z) (s : string) : bool :=
  match s with
  | EmptyString => false
  | _ =>
      match digits s 0 with
      | Some n => (Z.of_nat (String.length s) <=? 3) && (n <=? bound)
      | None => false
      end
  end.

Definition ipv4 (s : string) : bool :=
  match fields "."%char s with
  | [a; b; c; d] => forallb (number_upto 255) [a; b; c; d]
  | _ => false
  end.

Definition ipv4_or_prefix (s : string) : bool :=
  match fields "/"%char s with
  | [a] => ipv4 a
  | [a; n] => ipv4 a && number_upto 32 n
  | _ => false
  end.

(** The collaborators, for a given notion of well-formed address. *)
Definition collaborators (wf : string -> bool) : Collaborators State := {|
  CtxKeyAuthorizedUser := "ckau";
  CtxKeyRealIPStr := "ckri";
  RoleMember := 1;
  DefaultCost := 10;
  bcrypt_CompareHashAndPassword := CompareHashAndPassword;
  bcrypt_GenerateFromPassword := GenerateFromPassword;
  gorm_users := rows;
  gorm_Save := Save;
  gorm_Create := Create;
  singleton_OnUserUpdate := fun _ st => st;
  singleton_OnUserDelete := OnAccountDeleted;
  singleton_GetOnlineUsers := List;
  singleton_GetOnlineUserCount := Count;
  singleton_BlockByIPs := Block wf
|}.

#[global] Instance ipv4_collaborators : Collaborators State :=
  collaborators ipv4_or_prefix.

(** A store with an administrator and a member, two live sessions. *)
Definition admin : User := mkUser 1 "admin" (hash_of "hunter22") 0.
Definition alice : User := mkUser 2 "alice" (hash_of "correct horse") 1.

Definition st0 : State :=
  mkState [admin; alice] 3 None
          [mkOnlineUser 11 2 "10.0.0.2" 200; mkOnlineUser 10 1 "10.0.0.1" 100]
          ∅.

Definition w0 : World State := mkWorld st0 [].

(** A request authenticated as [u], coming from [ip]. *)
Definition request {B} (u : User) (ip : string)
    (query : list (string * list string)) (body : B + error) : Context B :=
  mkContext {[ "ckau" := AnyUser (Some u); "ckri" := AnyString ip ]}
            (list_to_map query) body.

(** A request that passed no authentication. *)
Definition anonymous {B} (body : B + error) : Context B :=
  mkContext ∅ ∅ body.

End Sim.

(** ** Properties of the handlers, for any collaborators *)

(** [r] is a return with an error of kind [k]. *)
Definition fails_with {X A} (r : run X (A * option error)) (k : ErrorClass) : Prop :=
  exists a err w', r = Done (a, Some err) w' /\ classify err = Some k.

(** The values listOnlineUser computes for its two query parameters,
    read off the two [if]s. *)
Definition clamp_limit (q : string) : Z :=
  let '(limit, err) := Atoi q in
  if notnil err || (limit <? 1) then 25 else limit.

Definition clamp_offset (q : string) : Z :=
  let '(offset, err) := Atoi q in
  if notnil err || (offset <? 0) then 0 else offset.

(** The world a run ends in, whether it returned or panicked. *)
Definition world_of {X A} (r : run X A) : World X :=
  match r with
  | Done _ w => w
  | Panic _ w => w
  end.

(** [r] is a panic. *)
Definition panics {X A} (r : run X A) : Prop :=
  exists msg w', r = Panic msg w'.

(** The value under a context key is a non-nil *model.User. *)
Definition holds_user (v : Any) : Prop := exists u, v = AnyUser (Some u).

(** [c] is a call of singleton.OnUserUpdate. *)
Definition is_OnUserUpdate (c : Call) : bool :=
  match c with
  | Call_OnUserUpdate _ => true
  | _ => false
  end.

(** *** Characters of a string

    utf8.RuneCountInString, after Go's unicode/utf8: the number of
    runes of a string read as UTF-8.  A leading byte followed by the
    continuation bytes its range asks for is one rune; any other byte
    is a rune of width 1. *)
Definition byte_of (a : ascii) : Z := Z.of_nat (nat_of_ascii a).

(** The byte [i] places into [s] exists and lies in [lo, hi]. *)
Definition between (lo hi : Z) (s : string) (i : nat) : bool :=
  match String.get i s with
  | Some a => (lo <=? byte_of a) && (byte_of a <=? hi)
  | None => false
  end.

(** Width of the rune that starts with byte [c], followed by [rest]. *)
Definition rune_width (c : ascii) (rest : string) : nat :=
  let b := byte_of c in
  if b <? 128 then 1%nat                       (* ASCII *)
  else if b <? 194 then 1%nat                  (* 0x80-0xC1: no leading byte *)
  else if b <=? 223 then                       (* 0xC2-0xDF: two bytes *)
    if between 128 191 rest 0 then 2%nat else 1%nat
  else if b <=? 239 then                       (* 0xE0-0xEF: three bytes *)
    let lo := if b =? 224 then 160 else 128 in
    let hi := if b =? 237 then 159 else 191 in
    if between lo hi rest 0 && between 128 191 rest 1 then 3%nat else 1%nat
  else if b <=? 244 then                       (* 0xF0-0xF4: four bytes *)
    let lo := if b =? 240 then 144 else 128 in
    let hi := if b =? 244 then 143 else 191 in
    if between lo hi rest 0 && between 128 191 rest 1 && between 128 191 rest 2
    then 4%nat else 1%nat
  else 1%nat.                                  (* 0xF5-0xFF *)

(** Runes of [s], the first [skip] bytes belonging to a rune already
    counted. *)
Fixpoint runes_from (skip : nat) (s : string) : nat :=
  match s with
  | EmptyString => 0%nat
  | String c rest =>
      match skip with
      | S k => runes_from k rest
      | O => S (runes_from (rune_width c rest - 1) rest)
      end
  end.

Definition RuneCountInString (s : string) : nat := runes_from 0 s.

(** Three times U+00E9 (e with acute accent) in UTF-8: three characters,
    six bytes. *)
Definition three_e_acute : string :=
  string_of_list_ascii (ascii_of_nat <$> [195; 169; 195; 169; 195; 169]%nat).

(** Unfold the monad down to matches on the collaborators' answers. *)
Ltac run_handler :=
  unfold ShouldBindJSON, Get, MustGet, assertUser, deref,
         GenerateFromPassword, DB_Omit_Find, DB_Save, DB_Create,
         OnUserUpdate, OnUserDelete, GetOnlineUsers, GetOnlineUserCount,
         BlockByIPs, call, panic, mbind, M_bind, mret, M_ret in *.

Lemma new_calls_same {X} (w : World X) : new_calls w w = [].
Proof. unfold new_calls. apply drop_all. Qed.

Lemma new_calls_app {X} (w : World X) (x : X) (l : list Call) :
  new_calls w (mkWorld x (calls w ++ l)) = l.
Proof. unfold new_calls. simpl. apply drop_app_length. Qed.

Lemma notnil_true (err : option error) : notnil err = true <-> err <> None.
Proof. destruct err; simpl; split; intros; congruence. Qed.

Section Properties.
Context {X : Type} `{E : Collaborators X}.

(** A secret shorter than six bytes stops createUser at its first
    check: the world comes back as it was. *)
Lemma createUser_short_secret (c : Context UserForm) (uf : UserForm) (w : World X) :
  Body c = inl uf ->
  (String.length (uf_Password uf) < 6)%nat ->
  createUser c w
  = Done (0, Some (ErrorT "password length must be greater than 6")) w.
Proof.
  intros Hbody Hlen. unfold createUser. run_handler. rewrite Hbody.
  destruct (Z.ltb_spec (Z.of_nat (String.length (uf_Password uf))) 6) as [_|Hge];
    [reflexivity | lia].
Qed.

(** Whatever createUser hands to the store passed both checks. *)
Lemma createUser_create_checked (c : Context UserForm) (w w' : World X)
    (r : Z * option error) (u : User) :
  createUser c w = Done r w' ->
  Call_DB_Create u ∈ new_calls w w' ->
  exists uf, Body c = inl uf
    /\ (6 <= String.length (uf_Password uf))%nat
    /\ uf_Username uf <> ""
    /\ Username u = uf_Username uf
    /\ Role u = RoleMember.
Proof.
  unfold createUser. run_handler.
  destruct (Body c) as [uf|err] eqn:Hbody.
  2:{ intros [= _ <-]. rewrite new_calls_same. inversion 1. }
  destruct (Z.ltb_spec (Z.of_nat (String.length (uf_Password uf))) 6) as [|Hlen].
  { intros [= _ <-]. rewrite new_calls_same. inversion 1. }
  destruct (String.eqb_spec (uf_Username uf) "") as [|Hname].
  { intros [= _ <-]. rewrite new_calls_same. inversion 1. }
  destruct (bcrypt_GenerateFromPassword _ _ _) as [[hash [e|]] x1]; simpl.
  { intros [= _ <-]. rewrite new_calls_app.
    intros Hin. apply list_elem_of_singleton in Hin. discriminate. }
  destruct (gorm_Create _ _) as [[u1 [e|]] x2]; simpl;
    intros [= _ <-]; rewrite <- ?app_assoc, new_calls_app; simpl; intros Hin;
    repeat (apply elem_of_cons in Hin as [Hin|Hin]; try discriminate);
    try (inversion Hin; fail);
    injection Hin as ->; exists uf; repeat split; auto; lia.
Qed.

Lemma listOnlineUser_eq {B} (c : Context B) (w : World X) :
  let limit := clamp_limit (Query c "limit") in
  let offset := clamp_offset (Query c "offset") in
  listOnlineUser c w
  = Done (Some (mkValue (singleton_GetOnlineUsers limit offset (ext w))
                        (mkPagination offset limit
                           (singleton_GetOnlineUserCount (ext w)))),
          None)
         (mkWorld (ext w)
            (calls w ++ [Call_GetOnlineUsers limit offset; Call_GetOnlineUserCount])).
Proof.
  unfold listOnlineUser, clamp_limit, clamp_offset. run_handler.
  destruct (Atoi (Query c "limit")) as [l el].
  destruct (Atoi (Query c "offset")) as [o eo]. simpl.
  by rewrite <- app_assoc.
Qed.

Lemma clamp_limit_spec (q : string) :
  (forall n, Atoi q = (n, None) -> 1 <= n -> clamp_limit q = n)
  /\ (snd (Atoi q) <> None \/ fst (Atoi q) < 1 -> clamp_limit q = 25).
Proof.
  unfold clamp_limit. destruct (Atoi q) as [n [e|]]; simpl; split.
  - intros ? [= ]. 
  - reflexivity.
  - intros ? [= ->] ?. destruct (Z.ltb_spec n0 1); [lia | reflexivity].
  - intros [?|?]; [congruence|]. destruct (Z.ltb_spec n 1); [reflexivity | lia].
Qed.

Lemma clamp_offset_spec (q : string) :
  (forall n, Atoi q = (n, None) -> 0 <= n -> clamp_offset q = n)
  /\ (snd (Atoi q) <> None \/ fst (Atoi q) < 0 -> clamp_offset q = 0).
Proof.
  unfold clamp_offset. destruct (Atoi q) as [n [e|]]; simpl; split.
  - intros ? [= ].
  - reflexivity.
  - intros ? [= ->] ?. destruct (Z.ltb_spec n0 0); [lia | reflexivity].
  - intros [?|?]; [congruence|]. destruct (Z.ltb_spec n 0); [reflexivity | lia].
Qed.

(** C1. A batch-delete request whose identity list contains the
    caller's own identity is answered with the "can't delete
    yourself" error, a ConflictError; the world is returned as it
    was, so OnUserDelete has not been called and no account is gone. *)
Theorem batchDeleteUser_rejects_self
    (c : Context (list Z)) (ids : list Z) (me : User) (w : World X) :
  Body c = inl ids ->
  Keys c !! CtxKeyAuthorizedUser = Some (AnyUser (Some me)) ->
  ID me ∈ ids ->
  batchDeleteUser c w = Done (AnyNil, Some (ErrorT "can't delete yourself")) w
  /\ fails_with (batchDeleteUser c w) ConflictError
  /\ forall w', (exists r, batchDeleteUser c w = Done r w') ->
       ext w' = ext w /\ forall ids', Call_OnUserDelete ids' ∉ new_calls w w'.
Proof.
  intros Hbody Hauth Hin.
  assert (Hrun : batchDeleteUser c w
                 = Done (AnyNil, Some (ErrorT "can't delete yourself")) w).
  { unfold batchDeleteUser, slices_Contains. run_handler.
    rewrite Hbody, Hauth. by rewrite bool_decide_eq_true_2. }
  split; [exact Hrun|]. split.
  - exists AnyNil, (ErrorT "can't delete yourself"), w. by rewrite Hrun.
  - intros w' [r Hr]. rewrite Hrun in Hr. injection Hr as _ <-.
    split; [reflexivity|]. intros ids'. rewrite new_calls_same. inversion 1.
Qed.

(** C2. listOnlineUser never fails and never panics.  A limit that
    does not parse or is below 1 becomes 25, an offset that does not
    parse or is negative becomes 0, any other value is kept; the
    clamped pair is the one passed to GetOnlineUsers and the one
    echoed in the pagination of the response. *)
Theorem listOnlineUser_clamps {B} (c : Context B) (w : World X) :
  exists limit offset : Z,
    ((snd (Atoi (Query c "limit")) <> None \/ fst (Atoi (Query c "limit")) < 1) ->
       limit = 25)
    /\ (forall n, Atoi (Query c "limit") = (n, None) -> 1 <= n -> limit = n)
    /\ ((snd (Atoi (Query c "offset")) <> None \/ fst (Atoi (Query c "offset")) < 0) ->
       offset = 0)
    /\ (forall n, Atoi (Query c "offset") = (n, None) -> 0 <= n -> offset = n)
    /\ listOnlineUser c w
       = Done (Some (mkValue (singleton_GetOnlineUsers limit offset (ext w))
                             (mkPagination offset limit
                                (singleton_GetOnlineUserCount (ext w)))),
               None)
              (mkWorld (ext w)
                 (calls w ++ [Call_GetOnlineUsers limit offset;
                              Call_GetOnlineUserCount])).
Proof.
  exists (clamp_limit (Query c "limit")), (clamp_offset (Query c "offset")).
  destruct (clamp_limit_spec (Query c "limit")) as [Hl1 Hl2].
  destruct (clamp_offset_spec (Query c "offset")) as [Ho1 Ho2].
  repeat split; auto. apply listOnlineUser_eq.
Qed.

(** C5, amended. A creation request whose secret is shorter than six
    bytes (Go's [len]; not six characters) fails with the short-secret
    error, a ValidationError, and the store's create is not reached:
    nothing was called and the state outside the controller is the one
    before the request. *)
Theorem createUser_short_secret_rejected
    (c : Context UserForm) (uf : UserForm) (w : World X) :
  Body c = inl uf ->
  (String.length (uf_Password uf) < 6)%nat ->
  fails_with (createUser c w) ValidationError
  /\ forall r w', createUser c w = Done r w' ->
       ext w' = ext w /\ forall u, Call_DB_Create u ∉ new_calls w w'.
Proof.
  intros Hbody Hlen.
  pose proof (createUser_short_secret c uf w Hbody Hlen) as Hrun. split.
  - eexists _, _, _. split; [exact Hrun | reflexivity].
  - intros r w' Hr. rewrite Hrun in Hr. injection Hr as _ <-.
    split; [reflexivity|]. intros u. rewrite new_calls_same. inversion 1.
Qed.

(** C10, amended. When the secret is shorter than six bytes (Go's
    [len]; not six characters) and the display name is empty as well,
    createUser reports the short secret: the length check comes
    first. *)
Theorem createUser_secret_checked_first
    (c : Context UserForm) (uf : UserForm) (w : World X) :
  Body c = inl uf ->
  (String.length (uf_Password uf) < 6)%nat ->
  uf_Username uf = "" ->
  exists err, createUser c w = Done (0, Some err) w
    /\ err = ErrorT "password length must be greater than 6"
    /\ err <> ErrorT "username can't be empty".
Proof.
  intros Hbody Hlen _. eexists. split; [|split; [reflexivity | discriminate]].
  exact (createUser_short_secret c uf w Hbody Hlen).
Qed.

(** C7. Without an authenticated identity under the context key
    getProfile fails with "unauthorized", an AuthenticationError; with
    one it returns that account and the address stored as the
    request's real IP. *)
Theorem getProfile_spec {B} (c : Context B) (w : World X) :
  (Keys c !! CtxKeyAuthorizedUser = None ->
     getProfile c w = Done (None, Some (ErrorT "unauthorized")) w
     /\ fails_with (getProfile c w) AuthenticationError)
  /\ (forall u, Keys c !! CtxKeyAuthorizedUser = Some (AnyUser (Some u)) ->
       getProfile c w
       = Done (Some (mkProfile u (GetString c CtxKeyRealIPStr)), None) w).
Proof.
  split.
  - intros Hnone.
    assert (Hrun : getProfile c w = Done (None, Some (ErrorT "unauthorized")) w).
    { unfold getProfile. run_handler. by rewrite Hnone. }
    split; [exact Hrun|]. eexists _, _, _. split; [exact Hrun | reflexivity].
  - intros u Hu. unfold getProfile. run_handler. by rewrite Hu.
Qed.

(** updateProfile, once the form is bound and the caller known, as one
    match on what the hasher and the store answer. *)
Lemma updateProfile_eq (c : Context ProfileForm) (pf : ProfileForm) (me : User)
    (w : World X) :
  Body c = inl pf ->
  Keys c !! CtxKeyAuthorizedUser = Some (AnyUser (Some me)) ->
  updateProfile c w =
    match bcrypt_CompareHashAndPassword (Password me) (OriginalPassword pf) with
    | Some _ => Done (AnyNil, Some (ErrorT "incorrect password")) w
    | None =>
        let gen := Call_GenerateFromPassword (NewPassword pf) in
        match bcrypt_GenerateFromPassword (NewPassword pf) DefaultCost (ext w) with
        | ((_, Some err), x1) => Done (AnyNil, Some err) (mkWorld x1 (calls w ++ [gen]))
        | ((hash, None), x1) =>
            let user := mkUser (ID me) (NewUsername pf) hash (Role me) in
            match gorm_Save user x1 with
            | (Some err, x2) =>
                Done (AnyNil, Some (gormError "%v" [err]))
                     (mkWorld x2 (calls w ++ [gen; Call_DB_Save user]))
            | (None, x2) =>
                Done (AnyNil, None)
                     (mkWorld x2 (calls w ++ [gen; Call_DB_Save user]))
            end
        end
    end.
Proof.
  intros Hbody Hauth. unfold updateProfile. run_handler. rewrite Hbody, Hauth.
  simpl. destruct (bcrypt_CompareHashAndPassword _ _); [reflexivity|]. simpl.
  destruct (bcrypt_GenerateFromPassword _ _ _) as [[hash [e|]] x1]; simpl;
    [reflexivity|].
  unfold set_Password, set_Username; simpl.
  destruct (gorm_Save _ _) as [[e|] x2]; simpl; by rewrite <- app_assoc.
Qed.

(** C6. updateProfile checks the supplied current secret against the
    stored hash.  On a mismatch it returns "incorrect password", an
    AuthenticationError, and the world is untouched: no save.  When
    the secret verifies, the handler succeeds exactly when the hasher
    yields a hash of the new secret and the store accepts the save;
    what is saved is the caller's account with the new display name
    and that hash. *)
Theorem updateProfile_verifies_current_secret
    (c : Context ProfileForm) (pf : ProfileForm) (me : User) (w : World X) :
  Body c = inl pf ->
  Keys c !! CtxKeyAuthorizedUser = Some (AnyUser (Some me)) ->
  (bcrypt_CompareHashAndPassword (Password me) (OriginalPassword pf) <> None ->
     updateProfile c w = Done (AnyNil, Some (ErrorT "incorrect password")) w
     /\ fails_with (updateProfile c w) AuthenticationError
     /\ forall u, Call_DB_Save u ∉ new_calls w w)
  /\ (bcrypt_CompareHashAndPassword (Password me) (OriginalPassword pf) = None ->
      forall r w',
        updateProfile c w = Done (r, None) w' <->
        r = AnyNil /\
        exists hash x1,
          bcrypt_GenerateFromPassword (NewPassword pf) DefaultCost (ext w)
            = ((hash, None), x1)
          /\ gorm_Save (mkUser (ID me) (NewUsername pf) hash (Role me)) x1
            = (None, ext w')
          /\ calls w'
            = (calls w ++ [Call_GenerateFromPassword (NewPassword pf);
                           Call_DB_Save (mkUser (ID me) (NewUsername pf) hash (Role me))])%list).
Proof.
  intros Hbody Hauth. pose proof (updateProfile_eq c pf me w Hbody Hauth) as Heq.
  split.
  - intros Hbad.
    destruct (bcrypt_CompareHashAndPassword _ _) as [e|]; [|congruence].
    split; [exact Heq|]. split.
    + eexists _, _, _. split; [exact Heq | reflexivity].
    + intros u. rewrite new_calls_same. inversion 1.
  - intros Hgood r w'. rewrite Heq, Hgood. simpl.
    destruct (bcrypt_GenerateFromPassword _ _ _) as [[hash [e|]] x1].
    { split; [discriminate|]. intros [_ (h & x & [=] & _)]. }
    destruct (gorm_Save _ _) as [[e|] x2] eqn:Hsave.
    { split; [discriminate|]. intros [_ (h & x & [= <- <-] & Hs & _)]. congruence. }
    split.
    + intros [= <- <-]. split; [reflexivity|]. by exists hash, x1.
    + intros [-> (h & x & [= <- <-] & Hs & Hc)]. destruct w' as [x' l']. simpl in *.
      rewrite Hsave in Hs. injection Hs as <-. by rewrite Hc.
Qed.

(** C8. A listing that succeeds returns the rows of the users table
    with the password column left at its zero value: no record in the
    result carries the stored hash. *)
Theorem listUser_omits_password {B} (c : Context B) (w w' : World X)
    (users : list User) :
  listUser c w = Done (users, None) w' ->
  Forall (fun u => Password u = "") users
  /\ exists rows, gorm_users (ext w) = (rows, None)
       /\ users = set_Password "" <$> rows.
Proof.
  unfold listUser. run_handler.
  destruct (gorm_users (ext w)) as [rows [e|]] eqn:Hrows; simpl; [discriminate|].
  intros [= <- _]. split.
  - apply Forall_fmap, Forall_forall. intros u _. reflexivity.
  - exists rows. split; reflexivity.
Qed.

(** C9. When createUser succeeds, the record it handed to the store's
    create has the role RoleMember, whatever the request carried; the
    identity returned is the one the store assigned. *)
Theorem createUser_assigns_member (c : Context UserForm) (w w' : World X) (id : Z) :
  createUser c w = Done (id, None) w' ->
  exists uf hash u u' x1 x2,
    Body c = inl uf
    /\ u = mkUser 0 (uf_Username uf) hash RoleMember
    /\ Role u = RoleMember
    /\ gorm_Create u x1 = ((u', None), x2)
    /\ ext w' = singleton_OnUserUpdate u' x2
    /\ id = ID u'
    /\ new_calls w w'
       = [Call_GenerateFromPassword (uf_Password uf); Call_DB_Create u;
          Call_OnUserUpdate u'].
Proof.
  unfold createUser. run_handler.
  destruct (Body c) as [uf|err]; [|discriminate].
  destruct (_ <? 6); [discriminate|].
  destruct (String.eqb _ _); [discriminate|].
  destruct (bcrypt_GenerateFromPassword _ _ _) as [[hash [e|]] x1]; simpl;
    [discriminate|].
  unfold set_Password, set_Role, set_Username, zeroUser; simpl.
  destruct (gorm_Create _ x1) as [[u' [e|]] x2] eqn:Hcreate; simpl; [discriminate|].
  intros [= <- <-]. simpl.
  exists uf, hash, (mkUser 0 (uf_Username uf) hash RoleMember), u', x1, x2.
  repeat split; auto.
  by rewrite <- !app_assoc, new_calls_app.
Qed.

(** batchBlockOnlineUser forwards the list to BlockByIPs and wraps
    whatever error comes back in a gorm error. *)
Lemma batchBlockOnlineUser_eq (c : Context (list string)) (addrs : list string)
    (w : World X) :
  Body c = inl addrs ->
  batchBlockOnlineUser c w =
    match singleton_BlockByIPs addrs (ext w) with
    | (Some err, x) =>
        Done (AnyNil, Some (gormError "%v" [err]))
             (mkWorld x (calls w ++ [Call_BlockByIPs addrs]))
    | (None, x) =>
        Done (AnyNil, None) (mkWorld x (calls w ++ [Call_BlockByIPs addrs]))
    end.
Proof.
  intros Hbody. unfold batchBlockOnlineUser. run_handler. rewrite Hbody.
  by destruct (singleton_BlockByIPs _ _) as [[e|] x].
Qed.

End Properties.

(** ** The handlers over the executable collaborators *)

(** strconv.Atoi on a few inputs. *)
Example Atoi_samples :
  Atoi <$> ["12"; "-3"; "+7"; ""; "-"; "1_0"; " 1"; "9223372036854775808"]
  = [(12, None); (-3, None); (7, None); (0, Some ErrSyntax); (0, Some ErrSyntax);
     (0, Some ErrSyntax); (0, Some ErrSyntax); (maxInt, Some ErrRange)].
Proof. reflexivity. Qed.

Example ipv4_or_prefix_samples :
  Sim.ipv4_or_prefix <$> ["10.0.0.1"; "10.0.0.0/8"; "10.0.0.256"; "10.0.0"; "oops"; ""]
  = [true; true; false; false; false; false].
Proof. reflexivity. Qed.

(** The specification's example: "ops" with secret "abcdef" is created
    as a member, the secret "ab" is refused. *)
Example createUser_ops :
  exists st,
    createUser (Sim.request Sim.admin "203.0.113.7" []
                  (inl (mkUserForm "ops" "abcdef" 0))) Sim.w0
    = Done (3, None)
        (mkWorld st [Call_GenerateFromPassword "abcdef";
                     Call_DB_Create (mkUser 0 "ops" (Sim.hash_of "abcdef") 1);
                     Call_OnUserUpdate (mkUser 3 "ops" (Sim.hash_of "abcdef") 1)])
    /\ Sim.users st = [Sim.admin; Sim.alice; mkUser 3 "ops" (Sim.hash_of "abcdef") 1].
Proof. eexists. split; [vm_compute; reflexivity | reflexivity]. Qed.

Example createUser_ab :
  createUser (Sim.request Sim.admin "203.0.113.7" []
                (inl (mkUserForm "ops" "ab" 0))) Sim.w0
  = Done (0, Some (ErrorT "password length must be greater than 6")) Sim.w0.
Proof. reflexivity. Qed.

(** Two sessions, limit 1: one entry, total 2. *)
Example listOnlineUser_page :
  exists w',
    listOnlineUser (Sim.request (B := unit) Sim.admin "203.0.113.7"
                      [("limit", ["1"]); ("offset", ["0"])] (inl tt)) Sim.w0
    = Done (Some (mkValue [mkOnlineUser 10 1 "10.0.0.1" 100] (mkPagination 0 1 2)),
            None) w'.
Proof. eexists. vm_compute. reflexivity. Qed.

(** C3. updateProfile does not keep the account invariants that
    createUser enforces: a caller who knows the current secret can
    store an empty display name and the hash of an empty secret.  The
    request below succeeds and the store then holds that account. *)
Theorem updateProfile_stores_unchecked_account :
  let pf := mkProfileForm "correct horse" "" "" in
  let c := Sim.request Sim.alice "203.0.113.7" [] (inl pf) in
  let stored := mkUser 2 "" (Sim.hash_of "") 1 in
  (String.length (NewPassword pf) < 6)%nat
  /\ NewUsername pf = ""
  /\ exists st,
       updateProfile c Sim.w0
       = Done (AnyNil, None)
           (mkWorld st [Call_GenerateFromPassword ""; Call_DB_Save stored])
       /\ Sim.users st = [Sim.admin; stored].
Proof.
  simpl. split; [lia|]. split; [reflexivity|].
  eexists. split; [vm_compute; reflexivity | reflexivity].
Qed.

(** The same request sent to createUser is refused, and in general
    nothing reaches the store's create without passing both checks
    ([createUser_create_checked]). *)
Example createUser_refuses_what_updateProfile_stores :
  createUser (Sim.request Sim.admin "203.0.113.7" [] (inl (mkUserForm "" "" 0))) Sim.w0
  = Done (0, Some (ErrorT "password length must be greater than 6")) Sim.w0
  /\ createUser (Sim.request Sim.admin "203.0.113.7" []
                   (inl (mkUserForm "" "abcdef" 0))) Sim.w0
    = Done (0, Some (ErrorT "username can't be empty")) Sim.w0.
Proof. split; reflexivity. Qed.

(** A string has at most as many characters as bytes: a secret below
    six bytes is below six characters too. *)
Lemma runes_from_le_length (s : string) (skip : nat) :
  (runes_from skip s <= String.length s)%nat.
Proof.
  revert skip. induction s as [|c rest IH]; intros skip; simpl; [lia|].
  destruct skip as [|k].
  - specialize (IH (rune_width c rest - 1)%nat). lia.
  - specialize (IH k). lia.
Qed.

Lemma RuneCountInString_le_length (s : string) :
  (RuneCountInString s <= String.length s)%nat.
Proof. apply runes_from_le_length. Qed.

Example three_e_acute_literal :
  three_e_acute = "ééé"
  /\ RuneCountInString three_e_acute = 3%nat
  /\ String.length three_e_acute = 6%nat.
Proof. repeat split. Qed.

(** C5, as stated, fails: the secret of three characters U+00E9 is
    shorter than six characters, but its six bytes pass the length
    check; the account is created and stored. *)
Lemma createUser_short_in_characters_persisted :
  let uf := mkUserForm "ops" three_e_acute 0 in
  let c := Sim.request Sim.admin "203.0.113.7" [] (inl uf) in
  let row := mkUser 3 "ops" (Sim.hash_of three_e_acute) 1 in
  (RuneCountInString (uf_Password uf) < 6)%nat
  /\ ~ fails_with (createUser c Sim.w0) ValidationError
  /\ exists st,
       createUser c Sim.w0
       = Done (3, None)
           (mkWorld st [Call_GenerateFromPassword three_e_acute;
                        Call_DB_Create (set_ID 0 row); Call_OnUserUpdate row])
       /\ Sim.users st = [Sim.admin; Sim.alice; row].
Proof.
  intros uf c row.
  assert (Hrun : exists st,
       createUser c Sim.w0
       = Done (3, None)
           (mkWorld st [Call_GenerateFromPassword three_e_acute;
                        Call_DB_Create (set_ID 0 row); Call_OnUserUpdate row])
       /\ Sim.users st = [Sim.admin; Sim.alice; row]).
  { eexists. split; [vm_compute; reflexivity | reflexivity]. }
  split; [vm_compute; lia|]. split; [|exact Hrun].
  destruct Hrun as (st & Hrun & _).
  intros (a & err & w' & Hfail & _). rewrite Hrun in Hfail. discriminate Hfail.
Qed.

(** C10, as stated, fails: with the same secret, shorter than six
    characters, and an empty display name, the error returned is the
    empty-name one. *)
Lemma createUser_short_in_characters_empty_name :
  let uf := mkUserForm "" three_e_acute 0 in
  let c := Sim.request Sim.admin "203.0.113.7" [] (inl uf) in
  (RuneCountInString (uf_Password uf) < 6)%nat
  /\ uf_Username uf = ""
  /\ createUser c Sim.w0 = Done (0, Some (ErrorT "username can't be empty")) Sim.w0
  /\ createUser c Sim.w0
     <> Done (0, Some (ErrorT "password length must be greater than 6")) Sim.w0.
Proof.
  intros uf c.
  assert (Hrun : createUser c Sim.w0
                 = Done (0, Some (ErrorT "username can't be empty")) Sim.w0)
    by (vm_compute; reflexivity).
  split; [vm_compute; lia|]. split; [reflexivity|]. split; [exact Hrun|].
  rewrite Hrun. discriminate.
Qed.


(** ** The theorems at concrete requests *)

Lemma batchDeleteUser_rejects_self_witness :
  let c := Sim.request Sim.admin "203.0.113.7" [] (inl [2; 1]) in
  Body c = inl [2; 1]
  /\ Keys c !! CtxKeyAuthorizedUser = Some (AnyUser (Some Sim.admin))
  /\ ID Sim.admin ∈ [2; 1]
  /\ batchDeleteUser c Sim.w0
     = Done (AnyNil, Some (ErrorT "can't delete yourself")) Sim.w0.
Proof.
  intros c.
  assert (Hb : Body c = inl [2; 1]) by reflexivity.
  assert (Hk : Keys c !! CtxKeyAuthorizedUser = Some (AnyUser (Some Sim.admin)))
    by (vm_compute; reflexivity).
  assert (Hi : ID Sim.admin ∈ [2; 1]) by (simpl; repeat constructor).
  refine (conj Hb (conj Hk (conj Hi _))).
  exact (proj1 (batchDeleteUser_rejects_self c [2; 1] Sim.admin Sim.w0 Hb Hk Hi)).
Defined.

Lemma createUser_short_secret_rejected_witness :
  let uf := mkUserForm "ops" "ab" 0 in
  let c := Sim.request Sim.admin "203.0.113.7" [] (inl uf) in
  Body c = inl uf
  /\ (String.length (uf_Password uf) < 6)%nat
  /\ fails_with (createUser c Sim.w0) ValidationError.
Proof.
  intros uf c.
  assert (Hb : Body c = inl uf) by reflexivity.
  assert (Hl : (String.length (uf_Password uf) < 6)%nat) by (simpl; lia).
  refine (conj Hb (conj Hl _)).
  exact (proj1 (createUser_short_secret_rejected c uf Sim.w0 Hb Hl)).
Defined.

Lemma createUser_secret_checked_first_witness :
  let uf := mkUserForm "" "ab" 0 in
  let c := Sim.request Sim.admin "203.0.113.7" [] (inl uf) in
  Body c = inl uf
  /\ (String.length (uf_Password uf) < 6)%nat
  /\ uf_Username uf = ""
  /\ exists err, createUser c Sim.w0 = Done (0, Some err) Sim.w0
       /\ err = ErrorT "password length must be greater than 6"
       /\ err <> ErrorT "username can't be empty".
Proof.
  intros uf c.
  assert (Hb : Body c = inl uf) by reflexivity.
  assert (Hl : (String.length (uf_Password uf) < 6)%nat) by (simpl; lia).
  assert (Hn : uf_Username uf = "") by reflexivity.
  refine (conj Hb (conj Hl (conj Hn _))).
  exact (createUser_secret_checked_first c uf Sim.w0 Hb Hl Hn).
Defined.

Lemma getProfile_spec_witness :
  let anon := Sim.anonymous (B := unit) (inl tt) in
  let c := Sim.request (B := unit) Sim.alice "203.0.113.7" [] (inl tt) in
  Keys anon !! CtxKeyAuthorizedUser = None
  /\ fails_with (getProfile anon Sim.w0) AuthenticationError
  /\ Keys c !! CtxKeyAuthorizedUser = Some (AnyUser (Some Sim.alice))
  /\ getProfile c Sim.w0 = Done (Some (mkProfile Sim.alice "203.0.113.7"), None) Sim.w0.
Proof.
  intros anon c.
  assert (Ha : Keys anon !! CtxKeyAuthorizedUser = None) by reflexivity.
  assert (Hc : Keys c !! CtxKeyAuthorizedUser = Some (AnyUser (Some Sim.alice)))
    by (vm_compute; reflexivity).
  refine (conj Ha (conj _ (conj Hc _))).
  - exact (proj2 (proj1 (getProfile_spec anon Sim.w0) Ha)).
  - exact (proj2 (getProfile_spec c Sim.w0) Sim.alice Hc).
Defined.

Lemma updateProfile_verifies_current_secret_witness :
  let bad := mkProfileForm "guess" "al" "new secret" in
  let good := mkProfileForm "correct horse" "al" "new secret" in
  let cb := Sim.request Sim.alice "203.0.113.7" [] (inl bad) in
  let cg := Sim.request Sim.alice "203.0.113.7" [] (inl good) in
  let saved := mkUser 2 "al" (Sim.hash_of "new secret") 1 in
  (Body cb = inl bad /\ Body cg = inl good)
  /\ Keys cb !! CtxKeyAuthorizedUser = Some (AnyUser (Some Sim.alice))
  /\ bcrypt_CompareHashAndPassword (Password Sim.alice) (OriginalPassword bad) <> None
  /\ bcrypt_CompareHashAndPassword (Password Sim.alice) (OriginalPassword good) = None
  /\ updateProfile cb Sim.w0 = Done (AnyNil, Some (ErrorT "incorrect password")) Sim.w0
  /\ updateProfile cg Sim.w0
     = Done (AnyNil, None)
         (mkWorld (Sim.with_users [Sim.admin; saved] Sim.st0)
                  [Call_GenerateFromPassword "new secret"; Call_DB_Save saved]).
Proof.
  intros bad good cb cg saved.
  assert (Hbb : Body cb = inl bad) by reflexivity.
  assert (Hbg : Body cg = inl good) by reflexivity.
  assert (Hk : Keys cb !! CtxKeyAuthorizedUser = Some (AnyUser (Some Sim.alice)))
    by (vm_compute; reflexivity).
  assert (Hbad : bcrypt_CompareHashAndPassword (Password Sim.alice)
                   (OriginalPassword bad) <> None) by (vm_compute; discriminate).
  assert (Hgood : bcrypt_CompareHashAndPassword (Password Sim.alice)
                    (OriginalPassword good) = None) by (vm_compute; reflexivity).
  refine (conj (conj Hbb Hbg) (conj Hk (conj Hbad (conj Hgood (conj _ _))))).
  - exact (proj1 (proj1 (updateProfile_verifies_current_secret
                           cb bad Sim.alice Sim.w0 Hbb Hk) Hbad)).
  - apply (proj2 (updateProfile_verifies_current_secret
                    cg good Sim.alice Sim.w0 Hbg Hk) Hgood).
    refine (conj eq_refl _).
    exists (Sim.hash_of "new secret"), Sim.st0.
    refine (conj _ (conj _ _)); vm_compute; reflexivity.
Defined.

Lemma listUser_omits_password_witness :
  let c := Sim.request (B := unit) Sim.admin "203.0.113.7" [] (inl tt) in
  let users := [mkUser 1 "admin" "" 0; mkUser 2 "alice" "" 1] in
  let w' := mkWorld Sim.st0 [Call_DB_Find ["password"]] in
  listUser c Sim.w0 = Done (users, None) w'
  /\ Forall (fun u => Password u = "") users.
Proof.
  intros c users w'.
  assert (Hrun : listUser c Sim.w0 = Done (users, None) w') by (vm_compute; reflexivity).
  refine (conj Hrun _).
  exact (proj1 (listUser_omits_password c Sim.w0 w' users Hrun)).
Defined.

(** The request asks for role 0; the account is created with role 1,
    RoleMember. *)
Lemma createUser_assigns_member_witness :
  let uf := mkUserForm "ops" "abcdef" 0 in
  let c := Sim.request Sim.admin "203.0.113.7" [] (inl uf) in
  let row := mkUser 3 "ops" (Sim.hash_of "abcdef") 1 in
  let w' := mkWorld (Sim.mkState [Sim.admin; Sim.alice; row] 4 None
                       (Sim.sessions Sim.st0) ∅)
                    [Call_GenerateFromPassword "abcdef";
                     Call_DB_Create (set_ID 0 row); Call_OnUserUpdate row] in
  createUser c Sim.w0 = Done (3, None) w'
  /\ exists uf' hash u u' x1 x2,
       Body c = inl uf'
       /\ u = mkUser 0 (uf_Username uf') hash RoleMember
       /\ Role u = RoleMember
       /\ gorm_Create u x1 = ((u', None), x2)
       /\ ext w' = singleton_OnUserUpdate u' x2
       /\ 3 = ID u'
       /\ new_calls Sim.w0 w'
          = [Call_GenerateFromPassword (uf_Password uf'); Call_DB_Create u;
             Call_OnUserUpdate u'].
Proof.
  intros uf c row w'.
  assert (Hrun : createUser c Sim.w0 = Done (3, None) w') by (vm_compute; reflexivity).
  refine (conj Hrun _).
  exact (createUser_assigns_member c Sim.w0 w' 3 Hrun).
Defined.


(** ** Further properties of the handlers *)

Lemma holds_user_dec (v : Any) : {u | v = AnyUser (Some u)} + {~ holds_user v}.
Proof.
  destruct v as [|[u|]|s|n]; try (right; intros [u' [=]]; fail).
  left. by exists u.
Qed.

Lemma elem_of_1 {A} (x y : A) : x ∈ [y] -> x = y.
Proof. intros H. by apply list_elem_of_singleton in H. Qed.

Lemma elem_of_2 {A} (x y z : A) : x ∈ [y; z] -> x = y \/ x = z.
Proof.
  intros H. apply elem_of_cons in H as [->|H]; [by left|].
  right. by apply elem_of_1.
Qed.

Lemma elem_of_3 {A} (x y z t : A) : x ∈ [y; z; t] -> x = y \/ x = z \/ x = t.
Proof.
  intros H. apply elem_of_cons in H as [->|H]; [by left|].
  right. by apply elem_of_2.
Qed.

(** strconv.Atoi never leaves the range of int, with or without error. *)
Lemma Atoi_range (s : string) : minInt <= fst (Atoi s) <= maxInt.
Proof.
  unfold Atoi.
  match goal with |- context [let '(_, _) := ?p in _] => destruct p as [neg body] end.
  assert (Hz : minInt <= 0 <= maxInt) by (unfold minInt, maxInt; lia).
  destruct body as [|a rest]; [exact Hz|].
  destruct (digits _ 0) as [n|]; [|exact Hz].
  destruct (Z.ltb_spec (if neg then - n else n) minInt); simpl.
  { unfold minInt, maxInt; lia. }
  destruct (Z.ltb_spec maxInt (if neg then - n else n)); simpl; [|lia].
  unfold minInt, maxInt; lia.
Qed.

Section MoreProperties.
Context {X : Type} `{E : Collaborators X}.

(** X1. getProfile reaches none of the collaborators whose calls are
    logged (the hasher, the store, OnUserUpdate, OnUserDelete,
    GetOnlineUsers, GetOnlineUserCount, BlockByIPs): whether it returns
    a profile, returns "unauthorized" or panics, the log has no new
    entry and the state behind the collaborators is the one it started
    from.  Building the error with Localizer.ErrorT is not a logged
    call. *)
Theorem getProfile_reaches_no_collaborator {B} (c : Context B) (w : World X) :
  new_calls w (world_of (getProfile c w)) = []
  /\ ext (world_of (getProfile c w)) = ext w.
Proof.
  assert (Hw : world_of (getProfile c w) = w).
  { unfold getProfile. run_handler.
    destruct (Keys c !! CtxKeyAuthorizedUser) as [[|[u|]|s|n]|]; reflexivity. }
  rewrite Hw. split; [apply new_calls_same | reflexivity].
Qed.

(** X2. getProfile panics exactly when something is stored under the
    authorized-user key that is not a non-nil *model.User (the type
    assertion or the dereference fails); a missing key is an error
    return, not a panic. *)
Theorem getProfile_panics_iff {B} (c : Context B) (w : World X) :
  panics (getProfile c w)
  <-> exists v, Keys c !! CtxKeyAuthorizedUser = Some v /\ ~ holds_user v.
Proof.
  unfold getProfile, panics. run_handler.
  destruct (Keys c !! CtxKeyAuthorizedUser) as [v|] eqn:Hk; simpl.
  - destruct (holds_user_dec v) as [[u ->]|Hno]; simpl.
    + split; [intros (? & ? & [=])|].
      intros (v & [= <-] & Hno). destruct Hno. by exists u.
    + split; [intros _; by exists v|]. intros _.
      destruct v as [|[u|]|s|n]; simpl; eauto.
      destruct Hno. by exists u.
  - split; [intros (? & ? & [=]) | intros (v & [=] & _)].
Qed.

(** X3. The address in the profile is the string stored under the
    real-IP key; when that key is missing or holds no string the
    profile is still returned, with an empty address. *)
Theorem getProfile_LoginIP {B} (c : Context B) (u : User) (w : World X) :
  Keys c !! CtxKeyAuthorizedUser = Some (AnyUser (Some u)) ->
  (forall s, Keys c !! CtxKeyRealIPStr = Some (AnyString s) ->
     getProfile c w = Done (Some (mkProfile u s), None) w)
  /\ ((forall s, Keys c !! CtxKeyRealIPStr <> Some (AnyString s)) ->
      getProfile c w = Done (Some (mkProfile u ""), None) w).
Proof.
  intros Hauth. unfold getProfile, GetString. run_handler. rewrite Hauth. simpl.
  split.
  - intros s ->. reflexivity.
  - intros Hno. destruct (Keys c !! CtxKeyRealIPStr) as [[| |s|]|]; try reflexivity.
    by destruct (Hno s).
Qed.

(** X4. A body that does not bind is answered with the binding error
    as it is, before anything else happens: nothing is called, and the
    caller's identity is not even looked up, so batchDeleteUser and
    updateProfile do not panic on such a request, whatever the context
    keys hold.  updateProfile alone returns 0 as its payload. *)
Theorem bind_failure_returned_as_is (err : error) (w : World X) :
  (forall c, Body c = inr err -> updateProfile c w = Done (AnyInt 0, Some err) w)
  /\ (forall c, Body c = inr err -> createUser c w = Done (0, Some err) w)
  /\ (forall c, Body c = inr err -> batchDeleteUser c w = Done (AnyNil, Some err) w)
  /\ (forall c, Body c = inr err ->
        batchBlockOnlineUser c w = Done (AnyNil, Some err) w).
Proof.
  repeat split; intros c Hbody;
    unfold updateProfile, createUser, batchDeleteUser, batchBlockOnlineUser;
    run_handler; by rewrite Hbody.
Qed.

(** X5. updateProfile without an identity under the context key fails
    with "unauthorized", an AuthenticationError, and calls nothing;
    the form is bound first, so this needs a body that binds. *)
Theorem updateProfile_unauthorized (c : Context ProfileForm) (pf : ProfileForm)
    (w : World X) :
  Body c = inl pf ->
  Keys c !! CtxKeyAuthorizedUser = None ->
  updateProfile c w = Done (AnyNil, Some (ErrorT "unauthorized")) w
  /\ fails_with (updateProfile c w) AuthenticationError.
Proof.
  intros Hbody Hnone.
  assert (Hrun : updateProfile c w = Done (AnyNil, Some (ErrorT "unauthorized")) w).
  { unfold updateProfile. run_handler. by rewrite Hbody, Hnone. }
  split; [exact Hrun|]. eexists _, _, _. split; [exact Hrun | reflexivity].
Qed.

(** X6. Whatever updateProfile saves, on any request and whatever the
    outcome, it saves only after the current secret verified against
    the caller's stored hash, and the saved record is the caller's own:
    same ID and Role, the form's new username, and as password the
    hash the hasher returned for the form's new password. *)
Theorem updateProfile_saves_only_verified (c : Context ProfileForm) (w : World X)
    (u : User) :
  Call_DB_Save u ∈ new_calls w (world_of (updateProfile c w)) ->
  exists pf me x1,
    Body c = inl pf
    /\ Keys c !! CtxKeyAuthorizedUser = Some (AnyUser (Some me))
    /\ bcrypt_CompareHashAndPassword (Password me) (OriginalPassword pf) = None
    /\ bcrypt_GenerateFromPassword (NewPassword pf) DefaultCost (ext w)
       = ((Password u, None), x1)
    /\ ID u = ID me /\ Role u = Role me /\ Username u = NewUsername pf.
Proof.
  destruct (Body c) as [pf|err] eqn:Hbody.
  2:{ unfold updateProfile. run_handler. rewrite Hbody. simpl.
      rewrite new_calls_same. inversion 1. }
  destruct (Keys c !! CtxKeyAuthorizedUser) as [v|] eqn:Hk.
  2:{ unfold updateProfile. run_handler. rewrite Hbody, Hk. simpl.
      rewrite new_calls_same. inversion 1. }
  destruct (holds_user_dec v) as [[me ->]|Hno].
  2:{ unfold updateProfile. run_handler. rewrite Hbody, Hk. simpl.
      destruct v as [|[me|]|s|n]; simpl; try (rewrite new_calls_same; inversion 1).
      destruct Hno. by exists me. }
  rewrite (updateProfile_eq c pf me w Hbody Hk).
  destruct (bcrypt_CompareHashAndPassword _ _) as [e|] eqn:Hcmp; simpl.
  { rewrite new_calls_same. inversion 1. }
  destruct (bcrypt_GenerateFromPassword _ _ _) as [[hash [e|]] x1] eqn:Hgen; simpl.
  { rewrite new_calls_app. intros Hin. apply elem_of_1 in Hin. discriminate. }
  destruct (gorm_Save _ _) as [[e|] x2]; simpl; rewrite new_calls_app;
    intros Hin; apply elem_of_2 in Hin as [Hin|Hin]; try discriminate;
    injection Hin as ->; exists pf, me, x1; by repeat split.
Qed.

(** X7. When the hasher refuses the new password, updateProfile returns
    the hasher's error as it is and the store is not asked to save. *)
Theorem updateProfile_hasher_failure (c : Context ProfileForm) (pf : ProfileForm)
    (me : User) (w : World X) (h : string) (err : error) (x1 : X) :
  Body c = inl pf ->
  Keys c !! CtxKeyAuthorizedUser = Some (AnyUser (Some me)) ->
  bcrypt_CompareHashAndPassword (Password me) (OriginalPassword pf) = None ->
  bcrypt_GenerateFromPassword (NewPassword pf) DefaultCost (ext w)
    = ((h, Some err), x1) ->
  exists w', updateProfile c w = Done (AnyNil, Some err) w'
    /\ ext w' = x1
    /\ forall u, Call_DB_Save u ∉ new_calls w w'.
Proof.
  intros Hbody Hk Hcmp Hgen. rewrite (updateProfile_eq c pf me w Hbody Hk).
  rewrite Hcmp, Hgen. simpl. eexists. split; [reflexivity|]. split; [reflexivity|].
  intros u. rewrite new_calls_app. intros Hin. apply elem_of_1 in Hin. discriminate.
Qed.

(** X8. When the store refuses the save, updateProfile wraps the store's
    error with newGormError("%v", err): the caller gets a gorm error,
    by kind a PersistenceError, not the store's own error value. *)
Theorem updateProfile_store_failure (c : Context ProfileForm) (pf : ProfileForm)
    (me : User) (w : World X) (hash : string) (err : error) (x1 x2 : X) :
  Body c = inl pf ->
  Keys c !! CtxKeyAuthorizedUser = Some (AnyUser (Some me)) ->
  bcrypt_CompareHashAndPassword (Password me) (OriginalPassword pf) = None ->
  bcrypt_GenerateFromPassword (NewPassword pf) DefaultCost (ext w)
    = ((hash, None), x1) ->
  gorm_Save (mkUser (ID me) (NewUsername pf) hash (Role me)) x1 = (Some err, x2) ->
  exists w', updateProfile c w = Done (AnyNil, Some (gormError "%v" [err])) w'
    /\ ext w' = x2
    /\ fails_with (updateProfile c w) PersistenceError.
Proof.
  intros Hbody Hk Hcmp Hgen Hsave.
  pose proof (updateProfile_eq c pf me w Hbody Hk) as Heq.
  rewrite Hcmp, Hgen in Heq. simpl in Heq. rewrite Hsave in Heq.
  eexists. split; [exact Heq|]. split; [reflexivity|].
  eexists _, _, _. split; [exact Heq | reflexivity].
Qed.

(** X9. updateProfile panics exactly when the body binds and something
    other than a non-nil *model.User is stored under the
    authorized-user key. *)
Theorem updateProfile_panics_iff (c : Context ProfileForm) (w : World X) :
  panics (updateProfile c w)
  <-> exists pf v, Body c = inl pf
        /\ Keys c !! CtxKeyAuthorizedUser = Some v /\ ~ holds_user v.
Proof.
  unfold panics.
  destruct (Body c) as [pf|err] eqn:Hbody.
  2:{ unfold updateProfile. run_handler. rewrite Hbody.
      split; [intros (? & ? & [=]) | intros (? & ? & [=] & _)]. }
  destruct (Keys c !! CtxKeyAuthorizedUser) as [v|] eqn:Hk.
  2:{ unfold updateProfile. run_handler. rewrite Hbody, Hk. simpl.
      split; [intros (? & ? & [=]) | intros (? & ? & _ & [=] & _)]. }
  destruct (holds_user_dec v) as [[me ->]|Hno].
  - rewrite (updateProfile_eq c pf me w Hbody Hk). split.
    + destruct (bcrypt_CompareHashAndPassword _ _); [intros (? & ? & [=])|].
      simpl. destruct (bcrypt_GenerateFromPassword _ _ _) as [[hash [e|]] x1];
        [intros (? & ? & [=])|].
      destruct (gorm_Save _ _) as [[e|] x2]; intros (? & ? & [=]).
    + intros (? & v & _ & [= <-] & Hno). destruct Hno. by exists me.
  - split; [intros _; by exists pf, v|]. intros _.
    unfold updateProfile. run_handler. rewrite Hbody, Hk. simpl.
    destruct v as [|[me|]|s|n]; simpl; eauto.
    destruct Hno. by exists me.
Qed.

(** X10. When the store cannot be read, listUser returns no record and
    the store's error as it is (not wrapped in a gorm error, unlike
    updateProfile's failed save). *)
Theorem listUser_store_failure {B} (c : Context B) (w : World X)
    (rows : list User) (err : error) :
  gorm_users (ext w) = (rows, Some err) ->
  listUser c w = Done ([], Some err) (mkWorld (ext w) (calls w ++ [Call_DB_Find ["password"]])).
Proof.
  intros Hrows. unfold listUser. run_handler. by rewrite Hrows.
Qed.

(** X11. A successful listing has one record per row of the users
    table, in the table's order, each with the row's ID, username and
    role. *)
Theorem listUser_keeps_other_fields {B} (c : Context B) (w w' : World X)
    (users rows : list User) :
  listUser c w = Done (users, None) w' ->
  gorm_users (ext w) = (rows, None) ->
  Forall2 (fun u r => ID u = ID r /\ Username u = Username r /\ Role u = Role r)
          users rows.
Proof.
  unfold listUser. run_handler. intros Hrun Hrows. rewrite Hrows in Hrun.
  simpl in Hrun. injection Hrun as <- _.
  apply Forall2_fmap_l, Forall_Forall2_diag, Forall_forall.
  intros r _. by repeat split.
Qed.

(** X12. The listing does not depend on the stored hashes: two stores
    whose users tables agree in everything but the password column give
    the same listing. *)
Theorem listUser_independent_of_hashes {B} (c : Context B) (w1 w2 : World X)
    (rows1 rows2 : list User) :
  gorm_users (ext w1) = (rows1, None) ->
  gorm_users (ext w2) = (rows2, None) ->
  Forall2 (fun r1 r2 => ID r1 = ID r2 /\ Username r1 = Username r2
                        /\ Role r1 = Role r2) rows1 rows2 ->
  exists users w1' w2',
    listUser c w1 = Done (users, None) w1'
    /\ listUser c w2 = Done (users, None) w2'.
Proof.
  intros H1 H2 Hrows. unfold listUser. run_handler. rewrite H1, H2. simpl.
  eexists _, _, _. split; [reflexivity|]. f_equal. f_equal. clear H1 H2.
  induction Hrows as [|r1 r2 l1 l2 (Hi & Hu & Hr) _ IH]; [reflexivity|].
  simpl. f_equal; [|exact IH].
  unfold omit_columns, omit_column, set_Password. simpl. by rewrite Hi, Hu, Hr.
Qed.

(** createUser on a form that passes both checks, as one match on what
    the hasher and the store answer. *)
Lemma createUser_eq (c : Context UserForm) (uf : UserForm) (w : World X) :
  Body c = inl uf ->
  (6 <= String.length (uf_Password uf))%nat ->
  uf_Username uf <> "" ->
  createUser c w =
    let gen := Call_GenerateFromPassword (uf_Password uf) in
    match bcrypt_GenerateFromPassword (uf_Password uf) DefaultCost (ext w) with
    | ((_, Some err), x1) => Done (0, Some err) (mkWorld x1 (calls w ++ [gen]))
    | ((hash, None), x1) =>
        let u := mkUser 0 (uf_Username uf) hash RoleMember in
        match gorm_Create u x1 with
        | ((_, Some err), x2) =>
            Done (0, Some err) (mkWorld x2 (calls w ++ [gen; Call_DB_Create u]))
        | ((u', None), x2) =>
            Done (ID u', None)
                 (mkWorld (singleton_OnUserUpdate u' x2)
                    (calls w ++ [gen; Call_DB_Create u; Call_OnUserUpdate u']))
        end
    end.
Proof.
  intros Hbody Hlen Hname. unfold createUser. run_handler. rewrite Hbody.
  destruct (Z.ltb_spec (Z.of_nat (String.length (uf_Password uf))) 6); [lia|].
  destruct (String.eqb_spec (uf_Username uf) ""); [contradiction|].
  destruct (bcrypt_GenerateFromPassword _ _ _) as [[hash [e|]] x1]; simpl;
    [reflexivity|].
  unfold set_Password, set_Role, set_Username, zeroUser; simpl.
  destruct (gorm_Create _ x1) as [[u' [e|]] x2]; simpl;
    by rewrite <- !app_assoc.
Qed.

(** createUser on a form that fails a check calls nothing. *)
Lemma createUser_invalid (c : Context UserForm) (w : World X) :
  (forall uf, Body c = inl uf ->
     (6 <= String.length (uf_Password uf))%nat -> uf_Username uf = "") ->
  exists r, createUser c w = Done r w /\ snd r <> None /\ fst r = 0.
Proof.
  intros Hinv. unfold createUser. run_handler.
  destruct (Body c) as [uf|err]; [|by eexists].
  destruct (Z.ltb_spec (Z.of_nat (String.length (uf_Password uf))) 6); [by eexists|].
  rewrite (Hinv uf) by (auto; lia). by eexists.
Qed.

(** X13. A secret of six bytes or more with an empty display name is
    refused with "username can't be empty", a ValidationError, and
    nothing is called: no hash is computed and the store is not
    reached. *)
Theorem createUser_empty_name_rejected (c : Context UserForm) (uf : UserForm)
    (w : World X) :
  Body c = inl uf ->
  (6 <= String.length (uf_Password uf))%nat ->
  uf_Username uf = "" ->
  createUser c w = Done (0, Some (ErrorT "username can't be empty")) w
  /\ fails_with (createUser c w) ValidationError.
Proof.
  intros Hbody Hlen Hname.
  assert (Hrun : createUser c w
                 = Done (0, Some (ErrorT "username can't be empty")) w).
  { unfold createUser. run_handler. rewrite Hbody, Hname.
    destruct (Z.ltb_spec (Z.of_nat (String.length (uf_Password uf))) 6);
      [lia | reflexivity]. }
  split; [exact Hrun|]. eexists _, _, _. split; [exact Hrun | reflexivity].
Qed.

(** X14. A form with a secret of at least six bytes (six included) and
    a non-empty name is accepted: when the hasher and the store
    succeed, createUser returns the identity the store assigned,
    having called, in this order, the hasher on the secret, the store's
    create and OnUserUpdate on the created record. *)
Theorem createUser_accepts_valid_form (c : Context UserForm) (uf : UserForm)
    (w : World X) (hash : string) (u' : User) (x1 x2 : X) :
  Body c = inl uf ->
  (6 <= String.length (uf_Password uf))%nat ->
  uf_Username uf <> "" ->
  bcrypt_GenerateFromPassword (uf_Password uf) DefaultCost (ext w)
    = ((hash, None), x1) ->
  gorm_Create (mkUser 0 (uf_Username uf) hash RoleMember) x1 = ((u', None), x2) ->
  createUser c w
  = Done (ID u', None)
      (mkWorld (singleton_OnUserUpdate u' x2)
         (calls w ++ [Call_GenerateFromPassword (uf_Password uf);
                      Call_DB_Create (mkUser 0 (uf_Username uf) hash RoleMember);
                      Call_OnUserUpdate u'])).
Proof.
  intros Hbody Hlen Hname Hgen Hcreate.
  rewrite (createUser_eq c uf w Hbody Hlen Hname). simpl.
  by rewrite Hgen, Hcreate.
Qed.

(** X15. Whatever createUser hands to the store's create, on any
    request: the record has no ID yet, the form's non-empty username,
    the role RoleMember, and as password the hash the hasher returned
    for the form's secret, which has at least six bytes.  The raw
    secret is passed to the hasher only. *)
Theorem createUser_created_record (c : Context UserForm) (w : World X) (u : User) :
  Call_DB_Create u ∈ new_calls w (world_of (createUser c w)) ->
  exists uf x1,
    Body c = inl uf
    /\ (6 <= String.length (uf_Password uf))%nat
    /\ uf_Username uf <> ""
    /\ bcrypt_GenerateFromPassword (uf_Password uf) DefaultCost (ext w)
       = ((Password u, None), x1)
    /\ u = mkUser 0 (uf_Username uf) (Password u) RoleMember.
Proof.
  destruct (Body c) as [uf|err] eqn:Hbody.
  2:{ destruct (createUser_invalid c w) as (r & -> & _); [congruence|].
      simpl. rewrite new_calls_same. inversion 1. }
  destruct (le_lt_dec 6 (String.length (uf_Password uf))) as [Hlen|Hlen].
  2:{ rewrite (createUser_short_secret c uf w Hbody Hlen). simpl.
      rewrite new_calls_same. inversion 1. }
  destruct (String.eqb_spec (uf_Username uf) "") as [Hname|Hname].
  { destruct (createUser_invalid c w) as (r & -> & _); [congruence|].
    simpl. rewrite new_calls_same. inversion 1. }
  rewrite (createUser_eq c uf w Hbody Hlen Hname). simpl.
  destruct (bcrypt_GenerateFromPassword _ _ _) as [[hash [e|]] x1] eqn:Hgen; simpl.
  { rewrite new_calls_app. intros Hin. apply elem_of_1 in Hin. discriminate. }
  destruct (gorm_Create _ x1) as [[u' [e|]] x2]; simpl; rewrite new_calls_app;
    intros Hin.
  - apply elem_of_2 in Hin as [Hin|Hin]; try discriminate.
    injection Hin as ->. by exists uf, x1.
  - apply elem_of_3 in Hin as [Hin|[Hin|Hin]]; try discriminate.
    injection Hin as ->. by exists uf, x1.
Qed.

(** X16. When the hasher refuses the secret, createUser returns the
    hasher's error as it is and the store's create is not reached. *)
Theorem createUser_hasher_failure (c : Context UserForm) (uf : UserForm)
    (w : World X) (h : string) (err : error) (x1 : X) :
  Body c = inl uf ->
  (6 <= String.length (uf_Password uf))%nat ->
  uf_Username uf <> "" ->
  bcrypt_GenerateFromPassword (uf_Password uf) DefaultCost (ext w)
    = ((h, Some err), x1) ->
  exists w', createUser c w = Done (0, Some err) w'
    /\ ext w' = x1
    /\ forall u, Call_DB_Create u ∉ new_calls w w'.
Proof.
  intros Hbody Hlen Hname Hgen.
  rewrite (createUser_eq c uf w Hbody Hlen Hname). simpl. rewrite Hgen.
  eexists. split; [reflexivity|]. split; [reflexivity|].
  intros u. rewrite new_calls_app. intros Hin. apply elem_of_1 in Hin. discriminate.
Qed.

(** X17. When the store refuses the create, createUser returns the
    store's error as it is (no gorm wrapper, unlike updateProfile), the
    identity 0, and OnUserUpdate is not called. *)
Theorem createUser_store_failure (c : Context UserForm) (uf : UserForm)
    (w : World X) (hash : string) (u' : User) (err : error) (x1 x2 : X) :
  Body c = inl uf ->
  (6 <= String.length (uf_Password uf))%nat ->
  uf_Username uf <> "" ->
  bcrypt_GenerateFromPassword (uf_Password uf) DefaultCost (ext w)
    = ((hash, None), x1) ->
  gorm_Create (mkUser 0 (uf_Username uf) hash RoleMember) x1 = ((u', Some err), x2) ->
  exists w', createUser c w = Done (0, Some err) w'
    /\ ext w' = x2
    /\ forall v, Call_OnUserUpdate v ∉ new_calls w w'.
Proof.
  intros Hbody Hlen Hname Hgen Hcreate.
  rewrite (createUser_eq c uf w Hbody Hlen Hname). simpl. rewrite Hgen, Hcreate.
  eexists. split; [reflexivity|]. split; [reflexivity|].
  intros v. rewrite new_calls_app. intros Hin.
  apply elem_of_2 in Hin as [Hin|Hin]; discriminate.
Qed.

(** X18. createUser notifies OnUserUpdate exactly when it succeeds: with
    a nil error the calls it made contain exactly one OnUserUpdate
    call, on a record whose ID is the identity returned; with an error
    they contain none, and the identity returned is 0. *)
Theorem createUser_notifies_iff_success (c : Context UserForm) (w w' : World X)
    (id : Z) (err : option error) :
  createUser c w = Done (id, err) w' ->
  (err = None ->
     exists u', ID u' = id
       /\ List.filter is_OnUserUpdate (new_calls w w') = [Call_OnUserUpdate u'])
  /\ (err <> None ->
      id = 0 /\ List.filter is_OnUserUpdate (new_calls w w') = []).
Proof.
  assert (Hinvalid : forall r, Done r w = Done (id, err) w' -> snd r <> None ->
            fst r = 0 ->
            (err = None -> exists u', ID u' = id
               /\ List.filter is_OnUserUpdate (new_calls w w') = [Call_OnUserUpdate u'])
            /\ (err <> None ->
                id = 0 /\ List.filter is_OnUserUpdate (new_calls w w') = [])).
  { intros r [= -> <-] Hr Hz. simpl in *. split; [congruence|]. intros _.
    split; [exact Hz|]. by rewrite new_calls_same. }
  destruct (Body c) as [uf|e0] eqn:Hbody.
  2:{ destruct (createUser_invalid c w) as (r & -> & Hr & Hz); [congruence|].
      intros Hrun. by apply (Hinvalid r). }
  destruct (le_lt_dec 6 (String.length (uf_Password uf))) as [Hlen|Hlen].
  2:{ rewrite (createUser_short_secret c uf w Hbody Hlen). intros Hrun.
      by apply (Hinvalid _ Hrun). }
  destruct (String.eqb_spec (uf_Username uf) "") as [Hname|Hname].
  { destruct (createUser_invalid c w) as (r & -> & Hr & Hz); [congruence|].
    intros Hrun. by apply (Hinvalid r). }
  clear Hinvalid. rewrite (createUser_eq c uf w Hbody Hlen Hname). simpl.
  destruct (bcrypt_GenerateFromPassword _ _ _) as [[hash [e|]] x1]; simpl.
  { intros [= <- <- <-]. split; [discriminate|]. intros _. split; [reflexivity|].
    by rewrite new_calls_app. }
  destruct (gorm_Create _ x1) as [[u' [e|]] x2]; simpl; intros [= <- <- <-];
    rewrite new_calls_app; simpl.
  - split; [discriminate|]. intros _. by split.
  - split; [|congruence]. intros _. by exists u'.
Qed.

(** batchDeleteUser, once the list is bound and the caller known. *)
Lemma batchDeleteUser_eq (c : Context (list Z)) (ids : list Z) (me : User)
    (w : World X) :
  Body c = inl ids ->
  Keys c !! CtxKeyAuthorizedUser = Some (AnyUser (Some me)) ->
  batchDeleteUser c w =
    if bool_decide (ID me ∈ ids)
    then Done (AnyNil, Some (ErrorT "can't delete yourself")) w
    else
      let '(err, x) := singleton_OnUserDelete ids newGormError (ext w) in
      Done (AnyNil, err) (mkWorld x (calls w ++ [Call_OnUserDelete ids])).
Proof.
  intros Hbody Hk. unfold batchDeleteUser, slices_Contains. run_handler.
  rewrite Hbody, Hk. simpl. destruct (bool_decide _); [reflexivity|].
  by destruct (singleton_OnUserDelete _ _ _).
Qed.

(** X19. When the caller's own identity is not in the list (an empty
    list included), batchDeleteUser hands the whole list to
    OnUserDelete once, with newGormError as the error formatter, and
    returns what OnUserDelete returns: its error is passed on as it
    is, and a nil error means success. *)
Theorem batchDeleteUser_delegates (c : Context (list Z)) (ids : list Z) (me : User)
    (w : World X) :
  Body c = inl ids ->
  Keys c !! CtxKeyAuthorizedUser = Some (AnyUser (Some me)) ->
  ID me ∉ ids ->
  exists err x,
    singleton_OnUserDelete ids newGormError (ext w) = (err, x)
    /\ batchDeleteUser c w
       = Done (AnyNil, err) (mkWorld x (calls w ++ [Call_OnUserDelete ids])).
Proof.
  intros Hbody Hk Hnot. rewrite (batchDeleteUser_eq c ids me w Hbody Hk).
  rewrite bool_decide_eq_false_2 by exact Hnot.
  destruct (singleton_OnUserDelete _ _ _) as [err x]. by exists err, x.
Qed.

(** X20. On any request and whatever the outcome, OnUserDelete is
    called exactly when the body binds to a list, a non-nil
    *model.User is under the authorized-user key and its ID is not in
    the list; the list passed on is the bound list, unfiltered. *)
Theorem batchDeleteUser_deletes_iff (c : Context (list Z)) (w : World X)
    (ids : list Z) :
  Call_OnUserDelete ids ∈ new_calls w (world_of (batchDeleteUser c w))
  <-> Body c = inl ids
      /\ exists me, Keys c !! CtxKeyAuthorizedUser = Some (AnyUser (Some me))
                    /\ ID me ∉ ids.
Proof.
  destruct (Body c) as [ids0|err] eqn:Hbody.
  2:{ unfold batchDeleteUser. run_handler. rewrite Hbody. simpl.
      rewrite new_calls_same. split; [inversion 1 | intros [[=] _]]. }
  destruct (Keys c !! CtxKeyAuthorizedUser) as [v|] eqn:Hk.
  2:{ unfold batchDeleteUser. run_handler. rewrite Hbody, Hk. simpl.
      rewrite new_calls_same. split; [inversion 1 | intros [_ (? & [=] & _)]]. }
  destruct (holds_user_dec v) as [[me ->]|Hno].
  2:{ assert (Hw : world_of (batchDeleteUser c w) = w).
      { unfold batchDeleteUser. run_handler. rewrite Hbody, Hk. simpl.
        destruct v as [|[me|]|s|n]; simpl; try reflexivity.
        destruct Hno. by exists me. }
      rewrite Hw, new_calls_same. split; [inversion 1|].
      intros [_ (me & [= ->] & _)]. destruct Hno. by exists me. }
  rewrite (batchDeleteUser_eq c ids0 me w Hbody Hk).
  destruct (bool_decide_reflect (ID me ∈ ids0)) as [Hin|Hnot]; simpl.
  - rewrite new_calls_same. split; [inversion 1|].
    intros [[= ->] (me' & [= <-] & Hnot)]. contradiction.
  - destruct (singleton_OnUserDelete _ _ _) as [err x]. simpl.
    rewrite new_calls_app. split.
    + intros H. apply elem_of_1 in H. injection H as ->.
      split; [reflexivity|]. by exists me.
    + intros [[= ->] _]. apply list_elem_of_here.
Qed.

(** X21. batchDeleteUser panics exactly when the body binds and the
    authorized-user key is missing (MustGet) or holds something other
    than a non-nil *model.User; the panic comes before any deletion. *)
Theorem batchDeleteUser_panics_iff (c : Context (list Z)) (w : World X) :
  panics (batchDeleteUser c w)
  <-> (exists ids, Body c = inl ids)
      /\ forall me, Keys c !! CtxKeyAuthorizedUser <> Some (AnyUser (Some me)).
Proof.
  unfold panics.
  destruct (Body c) as [ids|err] eqn:Hbody.
  2:{ unfold batchDeleteUser. run_handler. rewrite Hbody.
      split; [intros (? & ? & [=]) | intros [[? [=]] _]]. }
  destruct (Keys c !! CtxKeyAuthorizedUser) as [v|] eqn:Hk.
  2:{ unfold batchDeleteUser. run_handler. rewrite Hbody, Hk. simpl.
      split; [|eauto]. intros _. split; [eauto | congruence]. }
  destruct (holds_user_dec v) as [[me ->]|Hno].
  - rewrite (batchDeleteUser_eq c ids me w Hbody Hk). split.
    + destruct (bool_decide _); [intros (? & ? & [=])|].
      destruct (singleton_OnUserDelete _ _ _). intros (? & ? & [=]).
    + intros [_ Hnone]. by destruct (Hnone me).
  - split.
    + intros _. split; [eauto|]. intros me [= ->]. destruct Hno. by exists me.
    + intros _. unfold batchDeleteUser. run_handler. rewrite Hbody, Hk. simpl.
      destruct v as [|[me|]|s|n]; simpl; eauto.
      destruct Hno. by exists me.
Qed.

(** X22. Whatever the query holds, the pair listOnlineUser works with
    is a valid cursor within the range of int: 1 <= limit <= maxInt
    and 0 <= offset <= maxInt.  It is the pair passed to
    GetOnlineUsers, GetOnlineUserCount is asked next, and nothing else
    is called. *)
Theorem listOnlineUser_cursor_in_range {B} (c : Context B) (w : World X) :
  exists v w',
    listOnlineUser c w = Done (Some v, None) w'
    /\ 1 <= Limit (Value_Pagination v) <= maxInt
    /\ 0 <= Offset (Value_Pagination v) <= maxInt
    /\ new_calls w w'
       = [Call_GetOnlineUsers (Limit (Value_Pagination v))
                              (Offset (Value_Pagination v));
          Call_GetOnlineUserCount].
Proof.
  eexists _, _. split; [apply listOnlineUser_eq|]. simpl.
  rewrite new_calls_app. split; [|split; [|reflexivity]].
  - unfold clamp_limit. pose proof (Atoi_range (Query c "limit")) as Hr.
    destruct (Atoi (Query c "limit")) as [n [e|]]; simpl in *.
    { unfold maxInt; lia. }
    destruct (Z.ltb_spec n 1); [unfold maxInt|]; lia.
  - unfold clamp_offset. pose proof (Atoi_range (Query c "offset")) as Hr.
    destruct (Atoi (Query c "offset")) as [n [e|]]; simpl in *.
    { unfold maxInt; lia. }
    destruct (Z.ltb_spec n 0); [unfold maxInt|]; lia.
Qed.

(** X23. A request that carries no limit and no offset parameter is
    served with the defaults: GetOnlineUsers(25, 0), and limit 25,
    offset 0 in the pagination. *)
Theorem listOnlineUser_defaults {B} (c : Context B) (w : World X) :
  QueryArgs c !! "limit" = None ->
  QueryArgs c !! "offset" = None ->
  listOnlineUser c w
  = Done (Some (mkValue (singleton_GetOnlineUsers 25 0 (ext w))
                        (mkPagination 0 25 (singleton_GetOnlineUserCount (ext w)))),
          None)
         (mkWorld (ext w)
            (calls w ++ [Call_GetOnlineUsers 25 0; Call_GetOnlineUserCount])).
Proof.
  intros Hl Ho. rewrite listOnlineUser_eq. unfold Query. by rewrite Hl, Ho.
Qed.

(** X24. batchBlockOnlineUser does no checking of its own: a bound list
    (empty or not) is handed to BlockByIPs once, as it is.  The handler
    succeeds exactly when BlockByIPs returns nil, and every error of
    BlockByIPs comes back wrapped by newGormError("%v", err), by kind a
    PersistenceError. *)
Theorem batchBlockOnlineUser_delegates (c : Context (list string))
    (addrs : list string) (w : World X) :
  Body c = inl addrs ->
  exists err x a r w',
    singleton_BlockByIPs addrs (ext w) = (err, x)
    /\ batchBlockOnlineUser c w = Done (a, r) w'
    /\ ext w' = x
    /\ new_calls w w' = [Call_BlockByIPs addrs]
    /\ (r = None <-> err = None)
    /\ (forall e, err = Some e ->
          r = Some (gormError "%v" [e])
          /\ fails_with (batchBlockOnlineUser c w) PersistenceError).
Proof.
  intros Hbody. pose proof (batchBlockOnlineUser_eq c addrs w Hbody) as Heq.
  destruct (singleton_BlockByIPs addrs (ext w)) as [[e|] x].
  - eexists _, _, _, _, _. split; [reflexivity|]. split; [exact Heq|]. simpl.
    split; [reflexivity|]. rewrite new_calls_app. split; [reflexivity|].
    split; [split; discriminate|]. intros e' [= <-]. split; [reflexivity|].
    eexists _, _, _. split; [exact Heq | reflexivity].
  - eexists _, _, _, _, _. split; [reflexivity|]. split; [exact Heq|]. simpl.
    split; [reflexivity|]. rewrite new_calls_app. split; [reflexivity|].
    split; [split; reflexivity|]. intros e' [=].
Qed.

(** X25. Four handlers never consult the caller's identity or any
    other context key: createUser and batchBlockOnlineUser depend on
    the bound body alone, listOnlineUser on the URL query alone, and
    listUser on nothing in the request.  Who may call them is decided
    before they run. *)
Theorem handlers_ignore_context_keys (w : World X) :
  (forall c c' : Context UserForm, Body c = Body c' -> createUser c w = createUser c' w)
  /\ (forall c c' : Context (list string), Body c = Body c' ->
        batchBlockOnlineUser c w = batchBlockOnlineUser c' w)
  /\ (forall B (c c' : Context B), QueryArgs c = QueryArgs c' ->
        listOnlineUser c w = listOnlineUser c' w)
  /\ (forall B B' (c : Context B) (c' : Context B'), listUser c w = listUser c' w).
Proof.
  split; [|split; [|split]].
  - intros c c' Hb. unfold createUser, ShouldBindJSON. by rewrite Hb.
  - intros c c' Hb. unfold batchBlockOnlineUser, ShouldBindJSON. by rewrite Hb.
  - intros B c c' Hq. unfold listOnlineUser, Query. by rewrite Hq.
  - reflexivity.
Qed.

End MoreProperties.

(** ** The further properties at concrete requests *)

Lemma getProfile_panics_iff_witness :
  let c := mkContext (B := unit) {[ "ckau" := AnyString "alice" ]} ∅ (inl tt) in
  (exists v, Keys c !! CtxKeyAuthorizedUser = Some v /\ ~ holds_user v)
  /\ panics (getProfile c Sim.w0).
Proof.
  intros c.
  assert (H : exists v, Keys c !! CtxKeyAuthorizedUser = Some v /\ ~ holds_user v).
  { exists (AnyString "alice"). split; [vm_compute; reflexivity|]. intros [u [=]]. }
  refine (conj H _).
  exact (proj2 (getProfile_panics_iff c Sim.w0) H).
Defined.

Lemma getProfile_LoginIP_witness :
  let c := mkContext (B := unit) {[ "ckau" := AnyUser (Some Sim.alice) ]} ∅ (inl tt) in
  Keys c !! CtxKeyAuthorizedUser = Some (AnyUser (Some Sim.alice))
  /\ (forall s, Keys c !! CtxKeyRealIPStr <> Some (AnyString s))
  /\ getProfile c Sim.w0 = Done (Some (mkProfile Sim.alice ""), None) Sim.w0.
Proof.
  intros c.
  assert (Hk : Keys c !! CtxKeyAuthorizedUser = Some (AnyUser (Some Sim.alice)))
    by (vm_compute; reflexivity).
  assert (Hno : forall s, Keys c !! CtxKeyRealIPStr <> Some (AnyString s))
    by (intros s; vm_compute; discriminate).
  refine (conj Hk (conj Hno _)).
  exact (proj2 (getProfile_LoginIP c Sim.alice Sim.w0 Hk) Hno).
Defined.

Lemma bind_failure_returned_as_is_witness :
  let err := Foreign "gin" "unexpected end of JSON input" in
  let c := Sim.anonymous (B := list Z) (inr err) in
  Body c = inr err
  /\ batchDeleteUser c Sim.w0 = Done (AnyNil, Some err) Sim.w0.
Proof.
  intros err c.
  assert (Hb : Body c = inr err) by reflexivity.
  refine (conj Hb _).
  exact (proj1 (proj2 (proj2 (bind_failure_returned_as_is err Sim.w0))) c Hb).
Defined.

Lemma updateProfile_unauthorized_witness :
  let pf := mkProfileForm "correct horse" "al" "new secret" in
  let c := Sim.anonymous (inl pf) in
  Body c = inl pf
  /\ Keys c !! CtxKeyAuthorizedUser = None
  /\ updateProfile c Sim.w0 = Done (AnyNil, Some (ErrorT "unauthorized")) Sim.w0.
Proof.
  intros pf c.
  assert (Hb : Body c = inl pf) by reflexivity.
  assert (Hk : Keys c !! CtxKeyAuthorizedUser = None) by reflexivity.
  refine (conj Hb (conj Hk _)).
  exact (proj1 (updateProfile_unauthorized c pf Sim.w0 Hb Hk)).
Defined.

Lemma updateProfile_saves_only_verified_witness :
  let pf := mkProfileForm "correct horse" "al" "new secret" in
  let c := Sim.request Sim.alice "203.0.113.7" [] (inl pf) in
  let u := mkUser 2 "al" (Sim.hash_of "new secret") 1 in
  Call_DB_Save u ∈ new_calls Sim.w0 (world_of (updateProfile c Sim.w0))
  /\ exists pf' me x1,
       Body c = inl pf'
       /\ Keys c !! CtxKeyAuthorizedUser = Some (AnyUser (Some me))
       /\ bcrypt_CompareHashAndPassword (Password me) (OriginalPassword pf') = None
       /\ bcrypt_GenerateFromPassword (NewPassword pf') DefaultCost (ext Sim.w0)
          = ((Password u, None), x1)
       /\ ID u = ID me /\ Role u = Role me /\ Username u = NewUsername pf'.
Proof.
  intros pf c u.
  assert (Hin : Call_DB_Save u ∈ new_calls Sim.w0 (world_of (updateProfile c Sim.w0)))
    by (vm_compute; repeat constructor).
  refine (conj Hin _).
  exact (updateProfile_saves_only_verified c Sim.w0 u Hin).
Defined.

Lemma updateProfile_hasher_failure_witness :
  let long :=
    "0123456789012345678901234567890123456789012345678901234567890123456789012" in
  let pf := mkProfileForm "correct horse" "al" long in
  let c := Sim.request Sim.alice "203.0.113.7" [] (inl pf) in
  let err := Foreign "bcrypt" "password length exceeds 72 bytes" in
  Body c = inl pf
  /\ Keys c !! CtxKeyAuthorizedUser = Some (AnyUser (Some Sim.alice))
  /\ bcrypt_CompareHashAndPassword (Password Sim.alice) (OriginalPassword pf) = None
  /\ bcrypt_GenerateFromPassword (NewPassword pf) DefaultCost (ext Sim.w0)
     = (("", Some err), Sim.st0)
  /\ exists w', updateProfile c Sim.w0 = Done (AnyNil, Some err) w'
       /\ ext w' = Sim.st0
       /\ forall u, Call_DB_Save u ∉ new_calls Sim.w0 w'.
Proof.
  intros long pf c err.
  assert (Hb : Body c = inl pf) by reflexivity.
  assert (Hk : Keys c !! CtxKeyAuthorizedUser = Some (AnyUser (Some Sim.alice)))
    by (vm_compute; reflexivity).
  assert (Hc : bcrypt_CompareHashAndPassword (Password Sim.alice)
                 (OriginalPassword pf) = None) by (vm_compute; reflexivity).
  assert (Hg : bcrypt_GenerateFromPassword (NewPassword pf) DefaultCost (ext Sim.w0)
               = (("", Some err), Sim.st0)) by (vm_compute; reflexivity).
  refine (conj Hb (conj Hk (conj Hc (conj Hg _)))).
  exact (updateProfile_hasher_failure c pf Sim.alice Sim.w0 "" err Sim.st0 Hb Hk Hc Hg).
Defined.

Lemma updateProfile_store_failure_witness :
  let down := Sim.mkState [Sim.admin; Sim.alice] 3 (Some "database is locked") [] ∅ in
  let w := mkWorld down [] in
  let pf := mkProfileForm "correct horse" "al" "new secret" in
  let c := Sim.request Sim.alice "203.0.113.7" [] (inl pf) in
  let err := Foreign "gorm" "database is locked" in
  Body c = inl pf
  /\ Keys c !! CtxKeyAuthorizedUser = Some (AnyUser (Some Sim.alice))
  /\ bcrypt_CompareHashAndPassword (Password Sim.alice) (OriginalPassword pf) = None
  /\ bcrypt_GenerateFromPassword (NewPassword pf) DefaultCost (ext w)
     = ((Sim.hash_of "new secret", None), down)
  /\ gorm_Save (mkUser (ID Sim.alice) (NewUsername pf) (Sim.hash_of "new secret")
                  (Role Sim.alice)) down = (Some err, down)
  /\ exists w', updateProfile c w = Done (AnyNil, Some (gormError "%v" [err])) w'
       /\ ext w' = down
       /\ fails_with (updateProfile c w) PersistenceError.
Proof.
  intros down w pf c err.
  assert (Hb : Body c = inl pf) by reflexivity.
  assert (Hk : Keys c !! CtxKeyAuthorizedUser = Some (AnyUser (Some Sim.alice)))
    by (vm_compute; reflexivity).
  assert (Hc : bcrypt_CompareHashAndPassword (Password Sim.alice)
                 (OriginalPassword pf) = None) by (vm_compute; reflexivity).
  assert (Hg : bcrypt_GenerateFromPassword (NewPassword pf) DefaultCost (ext w)
               = ((Sim.hash_of "new secret", None), down)) by (vm_compute; reflexivity).
  assert (Hs : gorm_Save (mkUser (ID Sim.alice) (NewUsername pf)
                  (Sim.hash_of "new secret") (Role Sim.alice)) down = (Some err, down))
    by reflexivity.
  refine (conj Hb (conj Hk (conj Hc (conj Hg (conj Hs _))))).
  exact (updateProfile_store_failure c pf Sim.alice w _ err down down Hb Hk Hc Hg Hs).
Defined.

Lemma updateProfile_panics_iff_witness :
  let pf := mkProfileForm "correct horse" "al" "new secret" in
  let c := mkContext {[ "ckau" := AnyUser None ]} ∅ (inl pf) in
  (exists pf' v, Body c = inl pf'
     /\ Keys c !! CtxKeyAuthorizedUser = Some v /\ ~ holds_user v)
  /\ panics (updateProfile c Sim.w0).
Proof.
  intros pf c.
  assert (H : exists pf' v, Body c = inl pf'
                /\ Keys c !! CtxKeyAuthorizedUser = Some v /\ ~ holds_user v).
  { exists pf, (AnyUser None). split; [reflexivity|].
    split; [vm_compute; reflexivity|]. intros [u [=]]. }
  refine (conj H _).
  exact (proj2 (updateProfile_panics_iff c Sim.w0) H).
Defined.

Lemma listUser_store_failure_witness :
  let down := Sim.mkState [Sim.admin; Sim.alice] 3 (Some "database is locked") [] ∅ in
  let w := mkWorld down [] in
  let err := Foreign "gorm" "database is locked" in
  let c := Sim.request (B := unit) Sim.admin "203.0.113.7" [] (inl tt) in
  gorm_users (ext w) = ([], Some err)
  /\ listUser c w = Done ([], Some err) (mkWorld down [Call_DB_Find ["password"]]).
Proof.
  intros down w err c.
  assert (Hr : gorm_users (ext w) = ([], Some err)) by reflexivity.
  refine (conj Hr _).
  exact (listUser_store_failure c w [] err Hr).
Defined.

Lemma listUser_keeps_other_fields_witness :
  let c := Sim.request (B := unit) Sim.admin "203.0.113.7" [] (inl tt) in
  let users := [mkUser 1 "admin" "" 0; mkUser 2 "alice" "" 1] in
  let w' := mkWorld Sim.st0 [Call_DB_Find ["password"]] in
  listUser c Sim.w0 = Done (users, None) w'
  /\ gorm_users (ext Sim.w0) = ([Sim.admin; Sim.alice], None)
  /\ Forall2 (fun u r => ID u = ID r /\ Username u = Username r /\ Role u = Role r)
             users [Sim.admin; Sim.alice].
Proof.
  intros c users w'.
  assert (Hrun : listUser c Sim.w0 = Done (users, None) w') by (vm_compute; reflexivity).
  assert (Hrows : gorm_users (ext Sim.w0) = ([Sim.admin; Sim.alice], None))
    by reflexivity.
  refine (conj Hrun (conj Hrows _)).
  exact (listUser_keeps_other_fields c Sim.w0 w' users _ Hrun Hrows).
Defined.

Lemma listUser_independent_of_hashes_witness :
  let c := Sim.request (B := unit) Sim.admin "203.0.113.7" [] (inl tt) in
  let rows2 := [set_Password (Sim.hash_of "other") Sim.admin;
                set_Password "" Sim.alice] in
  let w2 := mkWorld (Sim.with_users rows2 Sim.st0) [] in
  gorm_users (ext Sim.w0) = ([Sim.admin; Sim.alice], None)
  /\ gorm_users (ext w2) = (rows2, None)
  /\ exists users w1' w2',
       listUser c Sim.w0 = Done (users, None) w1'
       /\ listUser c w2 = Done (users, None) w2'.
Proof.
  intros c rows2 w2.
  assert (H1 : gorm_users (ext Sim.w0) = ([Sim.admin; Sim.alice], None)) by reflexivity.
  assert (H2 : gorm_users (ext w2) = (rows2, None)) by reflexivity.
  refine (conj H1 (conj H2 _)).
  apply (listUser_independent_of_hashes c Sim.w0 w2 _ _ H1 H2).
  repeat constructor.
Defined.

Lemma createUser_empty_name_rejected_witness :
  let uf := mkUserForm "" "abcdef" 0 in
  let c := Sim.request Sim.admin "203.0.113.7" [] (inl uf) in
  Body c = inl uf
  /\ (6 <= String.length (uf_Password uf))%nat
  /\ uf_Username uf = ""
  /\ createUser c Sim.w0 = Done (0, Some (ErrorT "username can't be empty")) Sim.w0.
Proof.
  intros uf c.
  assert (Hb : Body c = inl uf) by reflexivity.
  assert (Hl : (6 <= String.length (uf_Password uf))%nat) by (simpl; lia).
  assert (Hn : uf_Username uf = "") by reflexivity.
  refine (conj Hb (conj Hl (conj Hn _))).
  exact (proj1 (createUser_empty_name_rejected c uf Sim.w0 Hb Hl Hn)).
Defined.

Lemma createUser_accepts_valid_form_witness :
  let uf := mkUserForm "ops" "abcdef" 0 in
  let c := Sim.request Sim.admin "203.0.113.7" [] (inl uf) in
  let hash := Sim.hash_of "abcdef" in
  let row := mkUser 3 "ops" hash 1 in
  let st := Sim.mkState [Sim.admin; Sim.alice; row] 4 None (Sim.sessions Sim.st0) ∅ in
  Body c = inl uf
  /\ (6 <= String.length (uf_Password uf))%nat
  /\ uf_Username uf <> ""
  /\ bcrypt_GenerateFromPassword (uf_Password uf) DefaultCost (ext Sim.w0)
     = ((hash, None), Sim.st0)
  /\ gorm_Create (mkUser 0 (uf_Username uf) hash RoleMember) Sim.st0
     = ((row, None), st)
  /\ createUser c Sim.w0
     = Done (3, None)
         (mkWorld st [Call_GenerateFromPassword "abcdef";
                      Call_DB_Create (mkUser 0 "ops" hash 1);
                      Call_OnUserUpdate row]).
Proof.
  intros uf c hash row st.
  assert (Hb : Body c = inl uf) by reflexivity.
  assert (Hl : (6 <= String.length (uf_Password uf))%nat) by (simpl; lia).
  assert (Hn : uf_Username uf <> "") by discriminate.
  assert (Hg : bcrypt_GenerateFromPassword (uf_Password uf) DefaultCost (ext Sim.w0)
               = ((hash, None), Sim.st0)) by (vm_compute; reflexivity).
  assert (Hc : gorm_Create (mkUser 0 (uf_Username uf) hash RoleMember) Sim.st0
               = ((row, None), st)) by (vm_compute; reflexivity).
  refine (conj Hb (conj Hl (conj Hn (conj Hg (conj Hc _))))).
  exact (createUser_accepts_valid_form c uf Sim.w0 hash row Sim.st0 st Hb Hl Hn Hg Hc).
Defined.

Lemma createUser_created_record_witness :
  let uf := mkUserForm "ops" "abcdef" 0 in
  let c := Sim.request Sim.admin "203.0.113.7" [] (inl uf) in
  let u := mkUser 0 "ops" (Sim.hash_of "abcdef") 1 in
  Call_DB_Create u ∈ new_calls Sim.w0 (world_of (createUser c Sim.w0))
  /\ exists uf' x1,
       Body c = inl uf'
       /\ (6 <= String.length (uf_Password uf'))%nat
       /\ uf_Username uf' <> ""
       /\ bcrypt_GenerateFromPassword (uf_Password uf') DefaultCost (ext Sim.w0)
          = ((Password u, None), x1)
       /\ u = mkUser 0 (uf_Username uf') (Password u) RoleMember.
Proof.
  intros uf c u.
  assert (Hin : Call_DB_Create u ∈ new_calls Sim.w0 (world_of (createUser c Sim.w0)))
    by (vm_compute; repeat constructor).
  refine (conj Hin _).
  exact (createUser_created_record c Sim.w0 u Hin).
Defined.

Lemma createUser_hasher_failure_witness :
  let long :=
    "0123456789012345678901234567890123456789012345678901234567890123456789012" in
  let uf := mkUserForm "ops" long 0 in
  let c := Sim.request Sim.admin "203.0.113.7" [] (inl uf) in
  let err := Foreign "bcrypt" "password length exceeds 72 bytes" in
  Body c = inl uf
  /\ (6 <= String.length (uf_Password uf))%nat
  /\ uf_Username uf <> ""
  /\ bcrypt_GenerateFromPassword (uf_Password uf) DefaultCost (ext Sim.w0)
     = (("", Some err), Sim.st0)
  /\ exists w', createUser c Sim.w0 = Done (0, Some err) w'
       /\ ext w' = Sim.st0
       /\ forall u, Call_DB_Create u ∉ new_calls Sim.w0 w'.
Proof.
  intros long uf c err.
  assert (Hb : Body c = inl uf) by reflexivity.
  assert (Hl : (6 <= String.length (uf_Password uf))%nat) by (vm_compute; lia).
  assert (Hn : uf_Username uf <> "") by discriminate.
  assert (Hg : bcrypt_GenerateFromPassword (uf_Password uf) DefaultCost (ext Sim.w0)
               = (("", Some err), Sim.st0)) by (vm_compute; reflexivity).
  refine (conj Hb (conj Hl (conj Hn (conj Hg _)))).
  exact (createUser_hasher_failure c uf Sim.w0 "" err Sim.st0 Hb Hl Hn Hg).
Defined.

Lemma createUser_store_failure_witness :
  let uf := mkUserForm "alice" "abcdef" 0 in
  let c := Sim.request Sim.admin "203.0.113.7" [] (inl uf) in
  let hash := Sim.hash_of "abcdef" in
  let u := mkUser 0 "alice" hash 1 in
  let err := Foreign "gorm" "UNIQUE constraint failed: users.username" in
  Body c = inl uf
  /\ (6 <= String.length (uf_Password uf))%nat
  /\ uf_Username uf <> ""
  /\ bcrypt_GenerateFromPassword (uf_Password uf) DefaultCost (ext Sim.w0)
     = ((hash, None), Sim.st0)
  /\ gorm_Create (mkUser 0 (uf_Username uf) hash RoleMember) Sim.st0
     = ((u, Some err), Sim.st0)
  /\ exists w', createUser c Sim.w0 = Done (0, Some err) w'
       /\ ext w' = Sim.st0
       /\ forall v, Call_OnUserUpdate v ∉ new_calls Sim.w0 w'.
Proof.
  intros uf c hash u err.
  assert (Hb : Body c = inl uf) by reflexivity.
  assert (Hl : (6 <= String.length (uf_Password uf))%nat) by (simpl; lia).
  assert (Hn : uf_Username uf <> "") by discriminate.
  assert (Hg : bcrypt_GenerateFromPassword (uf_Password uf) DefaultCost (ext Sim.w0)
               = ((hash, None), Sim.st0)) by (vm_compute; reflexivity).
  assert (Hc : gorm_Create (mkUser 0 (uf_Username uf) hash RoleMember) Sim.st0
               = ((u, Some err), Sim.st0)) by (vm_compute; reflexivity).
  refine (conj Hb (conj Hl (conj Hn (conj Hg (conj Hc _))))).
  exact (createUser_store_failure c uf Sim.w0 hash u err Sim.st0 Sim.st0
           Hb Hl Hn Hg Hc).
Defined.

Lemma createUser_notifies_iff_success_witness :
  let uf := mkUserForm "ops" "abcdef" 0 in
  let c := Sim.request Sim.admin "203.0.113.7" [] (inl uf) in
  let row := mkUser 3 "ops" (Sim.hash_of "abcdef") 1 in
  let w' := mkWorld (Sim.mkState [Sim.admin; Sim.alice; row] 4 None
                       (Sim.sessions Sim.st0) ∅)
                    [Call_GenerateFromPassword "abcdef";
                     Call_DB_Create (set_ID 0 row); Call_OnUserUpdate row] in
  createUser c Sim.w0 = Done (3, None) w'
  /\ exists u', ID u' = 3
       /\ List.filter is_OnUserUpdate (new_calls Sim.w0 w') = [Call_OnUserUpdate u'].
Proof.
  intros uf c row w'.
  assert (Hrun : createUser c Sim.w0 = Done (3, None) w') by (vm_compute; reflexivity).
  refine (conj Hrun _).
  exact (proj1 (createUser_notifies_iff_success c Sim.w0 w' 3 None Hrun) eq_refl).
Defined.

Lemma batchDeleteUser_delegates_witness :
  let c := Sim.request Sim.admin "203.0.113.7" [] (inl [2]) in
  Body c = inl [2]
  /\ Keys c !! CtxKeyAuthorizedUser = Some (AnyUser (Some Sim.admin))
  /\ (ID Sim.admin ∉ [2])
  /\ exists err x,
       singleton_OnUserDelete [2] newGormError (ext Sim.w0) = (err, x)
       /\ batchDeleteUser c Sim.w0
          = Done (AnyNil, err) (mkWorld x (calls Sim.w0 ++ [Call_OnUserDelete [2]])).
Proof.
  intros c.
  assert (Hb : Body c = inl [2]) by reflexivity.
  assert (Hk : Keys c !! CtxKeyAuthorizedUser = Some (AnyUser (Some Sim.admin)))
    by (vm_compute; reflexivity).
  assert (Hn : ID Sim.admin ∉ [2]).
  { simpl. intros H. apply elem_of_1 in H. discriminate. }
  refine (conj Hb (conj Hk (conj Hn _))).
  exact (batchDeleteUser_delegates c [2] Sim.admin Sim.w0 Hb Hk Hn).
Defined.

Lemma batchDeleteUser_deletes_iff_witness :
  let c := Sim.request Sim.admin "203.0.113.7" [] (inl []) in
  (Body c = inl []
   /\ exists me, Keys c !! CtxKeyAuthorizedUser = Some (AnyUser (Some me))
                 /\ ID me ∉ [])
  /\ Call_OnUserDelete [] ∈ new_calls Sim.w0 (world_of (batchDeleteUser c Sim.w0)).
Proof.
  intros c.
  assert (H : Body c = inl []
              /\ exists me, Keys c !! CtxKeyAuthorizedUser = Some (AnyUser (Some me))
                            /\ ID me ∉ []).
  { split; [reflexivity|]. exists Sim.admin. split; [vm_compute; reflexivity|].
    inversion 1. }
  refine (conj H _).
  exact (proj2 (batchDeleteUser_deletes_iff c Sim.w0 []) H).
Defined.

Lemma batchDeleteUser_panics_iff_witness :
  let c := Sim.anonymous (inl [2]) in
  ((exists ids, Body c = inl ids)
   /\ forall me, Keys c !! CtxKeyAuthorizedUser <> Some (AnyUser (Some me)))
  /\ panics (batchDeleteUser c Sim.w0).
Proof.
  intros c.
  assert (H : (exists ids, Body c = inl ids)
              /\ forall me, Keys c !! CtxKeyAuthorizedUser <> Some (AnyUser (Some me))).
  { split; [by exists [2]|]. intros me. vm_compute. discriminate. }
  refine (conj H _).
  exact (proj2 (batchDeleteUser_panics_iff c Sim.w0) H).
Defined.

Lemma listOnlineUser_defaults_witness :
  let c := Sim.request (B := unit) Sim.admin "203.0.113.7" [] (inl tt) in
  QueryArgs c !! "limit" = None
  /\ QueryArgs c !! "offset" = None
  /\ listOnlineUser c Sim.w0
     = Done (Some (mkValue [mkOnlineUser 10 1 "10.0.0.1" 100;
                            mkOnlineUser 11 2 "10.0.0.2" 200]
                           (mkPagination 0 25 2)), None)
         (mkWorld Sim.st0 [Call_GetOnlineUsers 25 0; Call_GetOnlineUserCount]).
Proof.
  intros c.
  assert (Hl : QueryArgs c !! "limit" = None) by reflexivity.
  assert (Ho : QueryArgs c !! "offset" = None) by reflexivity.
  refine (conj Hl (conj Ho _)).
  exact (listOnlineUser_defaults c Sim.w0 Hl Ho).
Defined.

Lemma batchBlockOnlineUser_delegates_witness :
  let c := Sim.request Sim.admin "203.0.113.7" [] (inl []) in
  Body c = inl []
  /\ exists err x a r w',
       singleton_BlockByIPs [] (ext Sim.w0) = (err, x)
       /\ batchBlockOnlineUser c Sim.w0 = Done (a, r) w'
       /\ ext w' = x
       /\ new_calls Sim.w0 w' = [Call_BlockByIPs []]
       /\ (r = None <-> err = None)
       /\ (forall e, err = Some e ->
             r = Some (gormError "%v" [e])
             /\ fails_with (batchBlockOnlineUser c Sim.w0) PersistenceError).
Proof.
  intros c.
  assert (Hb : Body c = inl []) by reflexivity.
  refine (conj Hb _).
  exact (batchBlockOnlineUser_delegates c [] Sim.w0 Hb).
Defined.

Lemma handlers_ignore_context_keys_witness :
  let uf := mkUserForm "ops" "abcdef" 0 in
  let c := Sim.request Sim.admin "203.0.113.7" [] (inl uf) in
  let c' := Sim.anonymous (inl uf) in
  Body c = Body c'
  /\ createUser c Sim.w0 = createUser c' Sim.w0.
Proof.
  intros uf c c'.
  assert (Hb : Body c = Body c') by reflexivity.
  refine (conj Hb _).
  exact (proj1 (handlers_ignore_context_keys Sim.w0) c c' Hb).
Defined.
